(** * azure-exemption-cli: the wizard's step machine

    A shallow embedding of the Bubble Tea model of the exemption wizard
    ([tui/model.go], [tui/update.go] and the messages and commands of the
    same package) and of the value types it works on ([azure/types.go]),
    followed by the properties of the step machine.

    Conventions.
    - Go's [int] is modelled by [Z].  The only arithmetic on it is
      [Cursor++] and [Cursor--], each guarded by a comparison against a
      slice length, so no wrap-around can occur.
    - A Go slice is a [list]; [nil] and the empty slice are both [[]].
    - [map[string]bool] is a [gmap string bool]; reading a missing key gives
      [false], as in Go.
    - An [error] is the text of its message; [nil] is [None].
    - Indexing a slice out of range panics in Go: every function that indexes
      lives in the [Res] monad, whose [Panic] stands for the run-time panic.
    - [*Model] is mutated in place by [Update]; the embedding passes the
      model explicitly and returns the mutated one. *)

From Stdlib Require Import ZArith Lia Ascii String.
From stdpp Require Import base option list gmap strings pretty.

Open Scope string_scope.
Open Scope Z_scope.

(** ** Run-time panics *)

Inductive Res (A : Type) : Type :=
| Ok (a : A)
| Panic.
Arguments Ok {A} a.
Arguments Panic {A}.

Definition bindRes {A B} (r : Res A) (k : A → Res B) : Res B :=
  match r with
  | Ok a => k a
  | Panic => Panic
  end.

Notation "'let!' x ':=' r 'in' k" := (bindRes r (λ x, k))
  (at level 10, x name, r at level 100, k at level 200).

(** [len(l)] *)
Definition len {A} (l : list A) : Z := Z.of_nat (length l).

(** [l[i]], panicking when [i] is out of range. *)
Definition index {A} (l : list A) (i : Z) : Res A :=
  if i <? 0 then Panic
  else match l !! Z.to_nat i with
       | Some x => Ok x
       | None => Panic
       end.

(** ** Package [strings] as far as the repository uses it *)

(** [strings.HasPrefix(s, p)] *)
Definition HasPrefix (s p : string) : bool := String.prefix p s.

(** [strings.Split(s, sep)] for a one-byte separator: the pieces of [s]
    between the occurrences of [sep]; always at least one piece. *)
Fixpoint Split (s : string) (sep : ascii) : list string :=
  match s with
  | EmptyString => [ EmptyString ]
  | String c r =>
      if Ascii.eqb c sep then EmptyString :: Split r sep
      else match Split r sep with
           | [] => [ String c EmptyString ]
           | h :: t => String c h :: t
           end
  end.

(** Go's white space, as UTF-8 byte sequences: the six ASCII ones, U+0085,
    U+00A0, U+1680, U+2000..U+200A, U+2028, U+2029, U+202F, U+205F and
    U+3000 ([unicode.IsSpace]). *)
Definition bytes (l : list nat) : list ascii := ascii_of_nat <$> l.

Definition spaceRunes : list (list ascii) :=
  bytes <$>
  [ [9%nat]; [10%nat]; [11%nat]; [12%nat]; [13%nat]; [32%nat];
    [194; 133]%nat; [194; 160]%nat; [225; 154; 128]%nat;
    [226; 128; 128]%nat; [226; 128; 129]%nat; [226; 128; 130]%nat;
    [226; 128; 131]%nat; [226; 128; 132]%nat; [226; 128; 133]%nat;
    [226; 128; 134]%nat; [226; 128; 135]%nat; [226; 128; 136]%nat;
    [226; 128; 137]%nat; [226; 128; 138]%nat; [226; 128; 168]%nat;
    [226; 128; 169]%nat; [226; 128; 175]%nat; [226; 129; 159]%nat;
    [227; 128; 128]%nat ].

Fixpoint stripPrefixBytes (p l : list ascii) : option (list ascii) :=
  match p, l with
  | [], _ => Some l
  | a :: p', b :: l' => if Ascii.eqb a b then stripPrefixBytes p' l' else None
  | _ :: _, [] => None
  end.

Fixpoint stripOneOf (ps : list (list ascii)) (l : list ascii)
  : option (list ascii) :=
  match ps with
  | [] => None
  | p :: ps' =>
      match stripPrefixBytes p l with
      | Some r => Some r
      | None => stripOneOf ps' l
      end
  end.

(** Drop leading runes of [ps]; [fuel] bounds the number of runes dropped. *)
Fixpoint trimLeft (fuel : nat) (ps : list (list ascii)) (l : list ascii)
  : list ascii :=
  match fuel with
  | O => l
  | S n =>
      match l with
      | [] => []
      | _ :: _ =>
          match stripOneOf ps l with
          | Some r => trimLeft n ps r
          | None => l
          end
      end
  end.

(** [strings.TrimSpace(s)]: [s] without its leading and trailing white
    space. *)
Definition TrimSpace (s : string) : string :=
  let l := list_ascii_of_string s in
  let l1 := trimLeft (length l) spaceRunes l in
  let l2 := trimLeft (length l1) (reverse <$> spaceRunes) (reverse l1) in
  string_of_list_ascii (reverse l2).

(** ** Package [time] as far as the repository uses it *)

Definition isDigit (c : ascii) : bool :=
  (48 <=? Z.of_nat (nat_of_ascii c)) && (Z.of_nat (nat_of_ascii c) <=? 57).

Definition digit (c : ascii) : Z := Z.of_nat (nat_of_ascii c) - 48.

Definition isLeap (year : Z) : bool :=
  (year mod 4 =? 0) && (negb (year mod 100 =? 0) || (year mod 400 =? 0)).

Definition daysIn (month year : Z) : Z :=
  if month =? 2 then (if isLeap year then 29 else 28)
  else if (month =? 4) || (month =? 6) || (month =? 9) || (month =? 11)
       then 30 else 31.

(** Modelled from the spec: [time.Parse("2006-01-02", value)] of Go's standard
    library, which is not part of the repository; [true] when the returned
    error is [nil].  The spec asks for a calendar date in the format
    YYYY-MM-DD: four digits, a dash, two digits, a dash, two digits, nothing
    else, a month from 1 to 12 and a day that exists in that month of that
    year. *)
Definition timeParseDate (value : string) : bool :=
  match list_ascii_of_string value with
  | [y1; y2; y3; y4; s1; m1; m2; s2; d1; d2] =>
      let year := 1000 * digit y1 + 100 * digit y2 + 10 * digit y3 + digit y4 in
      let month := 10 * digit m1 + digit m2 in
      let day := 10 * digit d1 + digit d2 in
      forallb isDigit [y1; y2; y3; y4; m1; m2; d1; d2]
      && Ascii.eqb s1 "-" && Ascii.eqb s2 "-"
      && (1 <=? month) && (month <=? 12)
      && (1 <=? day) && (day <=? daysIn month year)
  | _ => false
  end.

(** ** Package [azure]: the value types ([azure/types.go]) *)

Module Subscription.
Record t : Type := mk { ID : string; Name : string }.

(** [azure.Subscription{}] *)
Definition zero : t := mk "" "".

Definition Scope (s : t) : string :=
  if HasPrefix (ID s) "/" then ID s
  else "/subscriptions/" +:+ ID s.

Definition ShortID (s : t) : Res string :=
  if negb (HasPrefix (ID s) "/subscriptions/") then Ok (ID s)
  else
    let parts := Split (ID s) "/" in
    index parts (len parts - 1).
End Subscription.

Module ResourceGroup.
Record t : Type := mk { ID : string; Name : string }.
End ResourceGroup.

Module PolicyAssignment.
Record t : Type := mk {
  ID : string;
  Name : string;
  DisplayName : string;
  Scope : string;
  PolicyDefinitionID : string
}.

(** [azure.PolicyAssignment{}] *)
Definition zero : t := mk "" "" "" "" "".

Definition DisplayLabel (p : t) : string :=
  if negb (DisplayName p =? "")%string then DisplayName p
  else Name p.

Definition ShortID (p : t) : Res string :=
  if (ID p =? "")%string then Ok ""
  else
    let parts := Split (ID p) "/" in
    index parts (len parts - 1).
End PolicyAssignment.

Module PolicyDefinitionRef.
Record t : Type := mk {
  PolicyDefinitionID : string;
  ReferenceID : string;
  DisplayName : string
}.
End PolicyDefinitionRef.

(** ** Package [tui] *)

(** An [error] value, by its message. *)
Definition error : Type := string.

(** What the transition function observes of a [tea.KeyMsg]: its [Type]
    (compared with [tea.KeyEnter] only) and the text [msg.String()]
    returns. *)
Inductive KeyType : Type :=
| KeyEnter
| KeyRunes
| KeyOther.

Record KeyMsg : Type := mkKey {
  keyType : KeyType;
  keyString : string
}.

Definition isKeyEnter (t : KeyType) : bool :=
  match t with
  | KeyEnter => true
  | _ => false
  end.

(** The text-input widget of the [bubbles] library ([textinput.Model]), an
    external collaborator: the wizard creates three of them, gives and takes
    their focus, sets and reads their value and hands them every key of the
    step they belong to.  [inputCmd] is the type of the commands the
    widget's own [Update] hands back (cursor blinking and the like). *)
Class TextInput : Type := {
  textinput : Type;
  inputCmd : Type;
  (** [textinput.New()] followed by setting [Placeholder], [Prompt] and
      [CharLimit] *)
  newInput : string → string → Z → textinput;
  Blur : textinput → textinput;
  Focus : textinput → textinput;
  SetValue : string → textinput → textinput;
  Value : textinput → string;
  inputUpdate : textinput → KeyMsg → textinput * option inputCmd
}.

(** A small widget for running the machine on concrete events: it keeps the
    text and the focus, a focused widget appends the runes typed and ignores
    every other key, and it never hands back a command. *)
Record plainInput : Type := mkPlain { plainValue : string; plainFocus : bool }.

Definition plainUpdate (t : plainInput) (k : KeyMsg) : plainInput * option Empty_set :=
  match keyType k with
  | KeyRunes =>
      if plainFocus t then (mkPlain (plainValue t +:+ keyString k) true, None)
      else (t, None)
  | _ => (t, None)
  end.

Instance plainTextInput : TextInput := {|
  textinput := plainInput;
  inputCmd := Empty_set;
  newInput := λ _ _ _, mkPlain "" true;
  Blur := λ t, mkPlain (plainValue t) false;
  Focus := λ t, mkPlain (plainValue t) true;
  SetValue := λ v t, mkPlain v (plainFocus t);
  Value := plainValue;
  inputUpdate := plainUpdate
|}.

Inductive step : Type :=
| StepLoadingSubscriptions
| StepSelectSubscription
| StepLoadingAssignments
| StepSelectAssignment
| StepLoadingAssignmentDefinitions
| StepAssignmentScope
| StepSelectDefinitions
| StepLoadingResourceGroups
| StepSelectResourceGroup
| StepTicket
| StepUsers
| StepExpirationChoice
| StepExpirationDate
| StepConfirm
| StepCreating
| StepDone
| StepError.

Instance step_eq_dec : EqDecision step.
Proof. solve_decision. Defined.

Section Wizard.
Context `{TI : TextInput}.

(** The completion events and the key event; [otherMsg] stands for every
    other [tea.Msg] the runtime may deliver. *)
Inductive Msg : Type :=
| keyMsg (k : KeyMsg)
| subscriptionsLoadedMsg (subscriptions : list Subscription.t)
                         (err : option error)
| assignmentsLoadedMsg (assignments : list PolicyAssignment.t)
                       (err : option error)
| assignmentDefinitionsLoadedMsg (definitions : list PolicyDefinitionRef.t)
                                 (err : option error)
| resourceGroupsLoadedMsg (resourceGroups : list ResourceGroup.t)
                          (err : option error)
| exemptionCreatedMsg (output : string) (err : option error)
| otherMsg.

(** The [tea.Cmd] values the model hands to the runtime: [tea.Quit], the
    five asynchronous operations, each with the arguments its closure
    captures, and a command of the text-input widget.  The closure of
    [createExemptionCmd] captures the map of selected ids by reference; the
    model replaces that map (it never writes to it) once a create has been
    scheduled, so the constructor carries its contents. *)
Inductive Cmd : Type :=
| Quit
| fetchSubscriptionsCmd
| fetchAssignmentsCmd (sub : Subscription.t)
| fetchAssignmentDefinitionsCmd (assignment : PolicyAssignment.t)
| fetchResourceGroupsCmd (sub : Subscription.t)
| createExemptionCmd (scope : string) (assignment : PolicyAssignment.t)
                     (selectedDefinitionIDs : gmap string bool)
                     (ticket users expirationDate : string)
| textCmd (c : inputCmd).

Record Model : Type := mkModel {
  Step : step;
  Status : string;
  Err : option error;
  Subscriptions : list Subscription.t;
  Assignments : list PolicyAssignment.t;
  AssignmentDefinitions : list PolicyDefinitionRef.t;
  ResourceGroups : list ResourceGroup.t;
  SelectedDefinitionIDs : gmap string bool;
  Cursor : Z;
  SelectedSubscription : Z;
  SelectedAssignment : Z;
  SelectedResourceGroup : Z;
  PartialExemption : bool;
  TicketInput : textinput;
  UserInput : textinput;
  ExpirationInput : textinput;
  Ticket : string;
  RequestUser : string;
  ExpirationDate : string;
  CreateOutput : string
}.

(** Field assignments, [m.F = v]. *)
Definition setStep (v : step) (m : Model) : Model :=
  mkModel v (Status m) (Err m) (Subscriptions m) (Assignments m)
    (AssignmentDefinitions m) (ResourceGroups m) (SelectedDefinitionIDs m)
    (Cursor m) (SelectedSubscription m) (SelectedAssignment m)
    (SelectedResourceGroup m) (PartialExemption m) (TicketInput m)
    (UserInput m) (ExpirationInput m) (Ticket m) (RequestUser m)
    (ExpirationDate m) (CreateOutput m).

Definition setStatus (v : string) (m : Model) : Model :=
  mkModel (Step m) v (Err m) (Subscriptions m) (Assignments m)
    (AssignmentDefinitions m) (ResourceGroups m) (SelectedDefinitionIDs m)
    (Cursor m) (SelectedSubscription m) (SelectedAssignment m)
    (SelectedResourceGroup m) (PartialExemption m) (TicketInput m)
    (UserInput m) (ExpirationInput m) (Ticket m) (RequestUser m)
    (ExpirationDate m) (CreateOutput m).

Definition setErr (v : option error) (m : Model) : Model :=
  mkModel (Step m) (Status m) v (Subscriptions m) (Assignments m)
    (AssignmentDefinitions m) (ResourceGroups m) (SelectedDefinitionIDs m)
    (Cursor m) (SelectedSubscription m) (SelectedAssignment m)
    (SelectedResourceGroup m) (PartialExemption m) (TicketInput m)
    (UserInput m) (ExpirationInput m) (Ticket m) (RequestUser m)
    (ExpirationDate m) (CreateOutput m).

Definition setSubscriptions (v : list Subscription.t) (m : Model) : Model :=
  mkModel (Step m) (Status m) (Err m) v (Assignments m)
    (AssignmentDefinitions m) (ResourceGroups m) (SelectedDefinitionIDs m)
    (Cursor m) (SelectedSubscription m) (SelectedAssignment m)
    (SelectedResourceGroup m) (PartialExemption m) (TicketInput m)
    (UserInput m) (ExpirationInput m) (Ticket m) (RequestUser m)
    (ExpirationDate m) (CreateOutput m).

Definition setAssignments (v : list PolicyAssignment.t) (m : Model) : Model :=
  mkModel (Step m) (Status m) (Err m) (Subscriptions m) v
    (AssignmentDefinitions m) (ResourceGroups m) (SelectedDefinitionIDs m)
    (Cursor m) (SelectedSubscription m) (SelectedAssignment m)
    (SelectedResourceGroup m) (PartialExemption m) (TicketInput m)
    (UserInput m) (ExpirationInput m) (Ticket m) (RequestUser m)
    (ExpirationDate m) (CreateOutput m).

Definition setAssignmentDefinitions (v : list PolicyDefinitionRef.t) (m : Model) : Model :=
  mkModel (Step m) (Status m) (Err m) (Subscriptions m) (Assignments m) v
    (ResourceGroups m) (SelectedDefinitionIDs m) (Cursor m)
    (SelectedSubscription m) (SelectedAssignment m) (SelectedResourceGroup
    m) (PartialExemption m) (TicketInput m) (UserInput m) (ExpirationInput
    m) (Ticket m) (RequestUser m) (ExpirationDate m) (CreateOutput m).

Definition setResourceGroups (v : list ResourceGroup.t) (m : Model) : Model :=
  mkModel (Step m) (Status m) (Err m) (Subscriptions m) (Assignments m)
    (AssignmentDefinitions m) v (SelectedDefinitionIDs m) (Cursor m)
    (SelectedSubscription m) (SelectedAssignment m) (SelectedResourceGroup
    m) (PartialExemption m) (TicketInput m) (UserInput m) (ExpirationInput
    m) (Ticket m) (RequestUser m) (ExpirationDate m) (CreateOutput m).

Definition setSelectedDefinitionIDs (v : gmap string bool) (m : Model) : Model :=
  mkModel (Step m) (Status m) (Err m) (Subscriptions m) (Assignments m)
    (AssignmentDefinitions m) (ResourceGroups m) v (Cursor m)
    (SelectedSubscription m) (SelectedAssignment m) (SelectedResourceGroup
    m) (PartialExemption m) (TicketInput m) (UserInput m) (ExpirationInput
    m) (Ticket m) (RequestUser m) (ExpirationDate m) (CreateOutput m).

Definition setCursor (v : Z) (m : Model) : Model :=
  mkModel (Step m) (Status m) (Err m) (Subscriptions m) (Assignments m)
    (AssignmentDefinitions m) (ResourceGroups m) (SelectedDefinitionIDs m)
    v (SelectedSubscription m) (SelectedAssignment m)
    (SelectedResourceGroup m) (PartialExemption m) (TicketInput m)
    (UserInput m) (ExpirationInput m) (Ticket m) (RequestUser m)
    (ExpirationDate m) (CreateOutput m).

Definition setSelectedSubscription (v : Z) (m : Model) : Model :=
  mkModel (Step m) (Status m) (Err m) (Subscriptions m) (Assignments m)
    (AssignmentDefinitions m) (ResourceGroups m) (SelectedDefinitionIDs m)
    (Cursor m) v (SelectedAssignment m) (SelectedResourceGroup m)
    (PartialExemption m) (TicketInput m) (UserInput m) (ExpirationInput m)
    (Ticket m) (RequestUser m) (ExpirationDate m) (CreateOutput m).

Definition setSelectedAssignment (v : Z) (m : Model) : Model :=
  mkModel (Step m) (Status m) (Err m) (Subscriptions m) (Assignments m)
    (AssignmentDefinitions m) (ResourceGroups m) (SelectedDefinitionIDs m)
    (Cursor m) (SelectedSubscription m) v (SelectedResourceGroup m)
    (PartialExemption m) (TicketInput m) (UserInput m) (ExpirationInput m)
    (Ticket m) (RequestUser m) (ExpirationDate m) (CreateOutput m).

Definition setSelectedResourceGroup (v : Z) (m : Model) : Model :=
  mkModel (Step m) (Status m) (Err m) (Subscriptions m) (Assignments m)
    (AssignmentDefinitions m) (ResourceGroups m) (SelectedDefinitionIDs m)
    (Cursor m) (SelectedSubscription m) (SelectedAssignment m) v
    (PartialExemption m) (TicketInput m) (UserInput m) (ExpirationInput m)
    (Ticket m) (RequestUser m) (ExpirationDate m) (CreateOutput m).

Definition setPartialExemption (v : bool) (m : Model) : Model :=
  mkModel (Step m) (Status m) (Err m) (Subscriptions m) (Assignments m)
    (AssignmentDefinitions m) (ResourceGroups m) (SelectedDefinitionIDs m)
    (Cursor m) (SelectedSubscription m) (SelectedAssignment m)
    (SelectedResourceGroup m) v (TicketInput m) (UserInput m)
    (ExpirationInput m) (Ticket m) (RequestUser m) (ExpirationDate m)
    (CreateOutput m).

Definition setTicketInput (v : textinput) (m : Model) : Model :=
  mkModel (Step m) (Status m) (Err m) (Subscriptions m) (Assignments m)
    (AssignmentDefinitions m) (ResourceGroups m) (SelectedDefinitionIDs m)
    (Cursor m) (SelectedSubscription m) (SelectedAssignment m)
    (SelectedResourceGroup m) (PartialExemption m) v (UserInput m)
    (ExpirationInput m) (Ticket m) (RequestUser m) (ExpirationDate m)
    (CreateOutput m).

Definition setUserInput (v : textinput) (m : Model) : Model :=
  mkModel (Step m) (Status m) (Err m) (Subscriptions m) (Assignments m)
    (AssignmentDefinitions m) (ResourceGroups m) (SelectedDefinitionIDs m)
    (Cursor m) (SelectedSubscription m) (SelectedAssignment m)
    (SelectedResourceGroup m) (PartialExemption m) (TicketInput m) v
    (ExpirationInput m) (Ticket m) (RequestUser m) (ExpirationDate m)
    (CreateOutput m).

Definition setExpirationInput (v : textinput) (m : Model) : Model :=
  mkModel (Step m) (Status m) (Err m) (Subscriptions m) (Assignments m)
    (AssignmentDefinitions m) (ResourceGroups m) (SelectedDefinitionIDs m)
    (Cursor m) (SelectedSubscription m) (SelectedAssignment m)
    (SelectedResourceGroup m) (PartialExemption m) (TicketInput m)
    (UserInput m) v (Ticket m) (RequestUser m) (ExpirationDate m)
    (CreateOutput m).

Definition setTicket (v : string) (m : Model) : Model :=
  mkModel (Step m) (Status m) (Err m) (Subscriptions m) (Assignments m)
    (AssignmentDefinitions m) (ResourceGroups m) (SelectedDefinitionIDs m)
    (Cursor m) (SelectedSubscription m) (SelectedAssignment m)
    (SelectedResourceGroup m) (PartialExemption m) (TicketInput m)
    (UserInput m) (ExpirationInput m) v (RequestUser m) (ExpirationDate m)
    (CreateOutput m).

Definition setRequestUser (v : string) (m : Model) : Model :=
  mkModel (Step m) (Status m) (Err m) (Subscriptions m) (Assignments m)
    (AssignmentDefinitions m) (ResourceGroups m) (SelectedDefinitionIDs m)
    (Cursor m) (SelectedSubscription m) (SelectedAssignment m)
    (SelectedResourceGroup m) (PartialExemption m) (TicketInput m)
    (UserInput m) (ExpirationInput m) (Ticket m) v (ExpirationDate m)
    (CreateOutput m).

Definition setExpirationDate (v : string) (m : Model) : Model :=
  mkModel (Step m) (Status m) (Err m) (Subscriptions m) (Assignments m)
    (AssignmentDefinitions m) (ResourceGroups m) (SelectedDefinitionIDs m)
    (Cursor m) (SelectedSubscription m) (SelectedAssignment m)
    (SelectedResourceGroup m) (PartialExemption m) (TicketInput m)
    (UserInput m) (ExpirationInput m) (Ticket m) (RequestUser m) v
    (CreateOutput m).

Definition setCreateOutput (v : string) (m : Model) : Model :=
  mkModel (Step m) (Status m) (Err m) (Subscriptions m) (Assignments m)
    (AssignmentDefinitions m) (ResourceGroups m) (SelectedDefinitionIDs m)
    (Cursor m) (SelectedSubscription m) (SelectedAssignment m)
    (SelectedResourceGroup m) (PartialExemption m) (TicketInput m)
    (UserInput m) (ExpirationInput m) (Ticket m) (RequestUser m)
    (ExpirationDate m) v.


Definition NewModel : Model :=
  let ticketInput := Blur (newInput "e.g. INC123456" "Ticket> " 128) in
  let userInput :=
    Blur (newInput "Comma-separated requester names" "Users> " 256) in
  let expirationInput := Blur (newInput "YYYY-MM-DD" "Expires on> " 10) in
  {| Step := StepLoadingSubscriptions;
     Status := "";
     Err := None;
     Subscriptions := [];
     Assignments := [];
     AssignmentDefinitions := [];
     ResourceGroups := [];
     SelectedDefinitionIDs := ∅;
     Cursor := 0;
     SelectedSubscription := -1;
     SelectedAssignment := -1;
     SelectedResourceGroup := -1;
     PartialExemption := false;
     TicketInput := ticketInput;
     UserInput := userInput;
     ExpirationInput := expirationInput;
     Ticket := "";
     RequestUser := "";
     ExpirationDate := "";
     CreateOutput := "" |}.

Definition Init (m : Model) : option Cmd := Some fetchSubscriptionsCmd.

Definition CurrentSubscription (m : Model) : Res Subscription.t :=
  if (SelectedSubscription m >=? 0)
     && (SelectedSubscription m <? len (Subscriptions m))
  then index (Subscriptions m) (SelectedSubscription m)
  else if len (Subscriptions m) =? 0 then Ok Subscription.zero
  else index (Subscriptions m) 0.

Definition CurrentAssignment (m : Model) : Res PolicyAssignment.t :=
  if (SelectedAssignment m >=? 0)
     && (SelectedAssignment m <? len (Assignments m))
  then index (Assignments m) (SelectedAssignment m)
  else if len (Assignments m) =? 0 then Ok PolicyAssignment.zero
  else index (Assignments m) 0.

Definition Fail (err : error) (m : Model) : Model * option Cmd :=
  let m := setErr (Some err) m in
  let m := setStep StepError m in
  let m := setStatus "" m in
  (m, None).

(** [msg.String()] is one of the [names] of a [case] of the key switch. *)
Definition keyIn (k : KeyMsg) (names : list string) : bool :=
  existsb (String.eqb (keyString k)) names.

(** [clock] is the text [time.Now().AddDate(0, 0, 30).Format("2006-01-02")]
    evaluates to while the event is handled. *)
Definition handleKey (clock : string) (m : Model) (msg : KeyMsg)
  : Res (Model * option Cmd) :=
  match Step m with
  | StepSelectSubscription =>
      if keyIn msg ["up"; "k"] then
        if Cursor m >? 0 then Ok (setCursor (Cursor m - 1) m, None)
        else Ok (m, None)
      else if keyIn msg ["down"; "j"] then
        if Cursor m <? len (Subscriptions m) - 1
        then Ok (setCursor (Cursor m + 1) m, None)
        else Ok (m, None)
      else if keyIn msg ["enter"] then
        if len (Subscriptions m) =? 0 then Ok (m, None)
        else
          let m := setSelectedSubscription (Cursor m) m in
          let m := setStep StepLoadingAssignments m in
          let! sub := CurrentSubscription m in
          let m := setStatus ("Fetching policy assignments for "
                              +:+ Subscription.Name sub +:+ "...") m in
          Ok (m, Some (fetchAssignmentsCmd sub))
      else Ok (m, None)

  | StepSelectAssignment =>
      if keyIn msg ["up"; "k"] then
        if Cursor m >? 0 then Ok (setCursor (Cursor m - 1) m, None)
        else Ok (m, None)
      else if keyIn msg ["down"; "j"] then
        if Cursor m <? len (Assignments m) - 1
        then Ok (setCursor (Cursor m + 1) m, None)
        else Ok (m, None)
      else if keyIn msg ["enter"] then
        if len (Assignments m) =? 0 then Ok (m, None)
        else
          let m := setSelectedAssignment (Cursor m) m in
          let m := setStep StepLoadingAssignmentDefinitions m in
          let! assign := CurrentAssignment m in
          let m := setStatus ("Fetching assignment details for "
                              +:+ PolicyAssignment.DisplayLabel assign
                              +:+ "...") m in
          Ok (m, Some (fetchAssignmentDefinitionsCmd assign))
      else Ok (m, None)

  | StepAssignmentScope =>
      if keyIn msg ["up"; "k"] then
        if Cursor m >? 0 then Ok (setCursor (Cursor m - 1) m, None)
        else Ok (m, None)
      else if keyIn msg ["down"; "j"] then
        if Cursor m <? 1 then Ok (setCursor (Cursor m + 1) m, None)
        else Ok (m, None)
      else if keyIn msg ["enter"] then
        if Cursor m =? 0 then
          let m := setPartialExemption false m in
          let m := setStep StepLoadingResourceGroups m in
          let m := setStatus "Loading resource groups..." m in
          let! sub := CurrentSubscription m in
          Ok (m, Some (fetchResourceGroupsCmd sub))
        else
          let m := setPartialExemption true m in
          let m := setStep StepSelectDefinitions m in
          let m := setCursor 0 m in
          let m := setStatus
            "Select definitions to exempt (space to toggle, Enter to continue)."
            m in
          Ok (m, None)
      else Ok (m, None)

  | StepSelectDefinitions =>
      if keyIn msg ["up"; "k"] then
        if Cursor m >? 0 then Ok (setCursor (Cursor m - 1) m, None)
        else Ok (m, None)
      else if keyIn msg ["down"; "j"] then
        if Cursor m <? len (AssignmentDefinitions m) - 1
        then Ok (setCursor (Cursor m + 1) m, None)
        else Ok (m, None)
      else if keyIn msg [" "] then
        if len (AssignmentDefinitions m) =? 0 then Ok (m, None)
        else
          let! ref := index (AssignmentDefinitions m) (Cursor m) in
          let id := PolicyDefinitionRef.ReferenceID ref in
          if default false (SelectedDefinitionIDs m !! id)
          then Ok (setSelectedDefinitionIDs
                     (delete id (SelectedDefinitionIDs m)) m, None)
          else Ok (setSelectedDefinitionIDs
                     (<[id := true]> (SelectedDefinitionIDs m)) m, None)
      else if keyIn msg ["enter"] then
        if len (AssignmentDefinitions m) =? 0 then Ok (m, None)
        else if Z.of_nat (size (SelectedDefinitionIDs m)) =? 0 then
          Ok (setStatus
                "Select at least one definition or choose full assignment." m,
              None)
        else
          let m := setStep StepLoadingResourceGroups m in
          let m := setStatus "Loading resource groups..." m in
          let! sub := CurrentSubscription m in
          Ok (m, Some (fetchResourceGroupsCmd sub))
      else Ok (m, None)

  | StepSelectResourceGroup =>
      if keyIn msg ["up"; "k"] then
        if Cursor m >? 0 then Ok (setCursor (Cursor m - 1) m, None)
        else Ok (m, None)
      else if keyIn msg ["down"; "j"] then
        if Cursor m <? len (ResourceGroups m) - 1
        then Ok (setCursor (Cursor m + 1) m, None)
        else Ok (m, None)
      else if keyIn msg ["enter"] then
        if len (ResourceGroups m) =? 0 then Ok (m, None)
        else
          let m := setSelectedResourceGroup (Cursor m) m in
          let m := setStep StepTicket m in
          let m := setTicketInput (SetValue "" (TicketInput m)) m in
          let m := setTicketInput (Focus (TicketInput m)) m in
          let m := setStatus
            "Provide the tracking ticket number linked to this exemption:" m in
          Ok (m, None)
      else Ok (m, None)

  | StepTicket =>
      let '(input, cmd) := inputUpdate (TicketInput m) msg in
      let m := setTicketInput input m in
      let textCmd := textCmd <$> cmd in
      if isKeyEnter (keyType msg) then
        let value := TrimSpace (Value (TicketInput m)) in
        if (value =? "")%string then
          Ok (setStatus "A ticket number is required." m, textCmd)
        else
          let m := setTicket value m in
          let m := setStep StepUsers m in
          let m := setTicketInput (Blur (TicketInput m)) m in
          let m := setUserInput (SetValue "" (UserInput m)) m in
          let m := setUserInput (Focus (UserInput m)) m in
          let m := setStatus
            "Who is requesting this exemption? Provide one or more names." m in
          Ok (m, textCmd)
      else Ok (m, textCmd)

  | StepUsers =>
      let '(input, cmd) := inputUpdate (UserInput m) msg in
      let m := setUserInput input m in
      let textCmd := textCmd <$> cmd in
      if isKeyEnter (keyType msg) then
        let value := TrimSpace (Value (UserInput m)) in
        if (value =? "")%string then
          Ok (setStatus "At least one requester name is required." m, textCmd)
        else
          let m := setRequestUser value m in
          let m := setStep StepExpirationChoice m in
          let m := setUserInput (Blur (UserInput m)) m in
          let m := setCursor 0 m in
          let m := setStatus "Set an expiration date for this exemption?" m in
          Ok (m, textCmd)
      else Ok (m, textCmd)

  | StepExpirationChoice =>
      if keyIn msg ["up"; "k"] then
        if Cursor m >? 0 then Ok (setCursor (Cursor m - 1) m, None)
        else Ok (m, None)
      else if keyIn msg ["down"; "j"] then
        if Cursor m <? 1 then Ok (setCursor (Cursor m + 1) m, None)
        else Ok (m, None)
      else if keyIn msg ["enter"] then
        if Cursor m =? 0 then
          let m := setExpirationDate "" m in
          let m := setStep StepConfirm m in
          let m := setStatus
            "Review the summary and press Enter to create the exemption." m in
          Ok (m, None)
        else
          let m := setStep StepExpirationDate m in
          let m := setExpirationInput (SetValue clock (ExpirationInput m)) m in
          let m := setExpirationInput (Focus (ExpirationInput m)) m in
          let m := setStatus "Enter expiration date (YYYY-MM-DD):" m in
          Ok (m, None)
      else Ok (m, None)

  | StepExpirationDate =>
      let '(input, cmd) := inputUpdate (ExpirationInput m) msg in
      let m := setExpirationInput input m in
      let textCmd := textCmd <$> cmd in
      if isKeyEnter (keyType msg) then
        let value := TrimSpace (Value (ExpirationInput m)) in
        if (value =? "")%string then
          Ok (setStatus "Expiration date is required." m, textCmd)
        else if negb (timeParseDate value) then
          Ok (setStatus "Invalid date format. Please use YYYY-MM-DD." m,
              textCmd)
        else
          let m := setExpirationDate value m in
          let m := setStep StepConfirm m in
          let m := setExpirationInput (Blur (ExpirationInput m)) m in
          let m := setStatus
            "Review the summary and press Enter to create the exemption." m in
          Ok (m, textCmd)
      else Ok (m, textCmd)

  | StepConfirm =>
      if isKeyEnter (keyType msg) then
        if (SelectedAssignment m <? 0)
           || (Ticket m =? "")%string
           || (RequestUser m =? "")%string
           || (SelectedSubscription m <? 0)
           || (SelectedResourceGroup m <? 0)
        then Ok (setStatus "Missing information. Use q to abort." m, None)
        else
          let m := setStep StepCreating m in
          let! assign := CurrentAssignment m in
          let! rg := index (ResourceGroups m) (SelectedResourceGroup m) in
          let m := setStatus "Creating Azure Policy exemption..." m in
          Ok (m, Some (createExemptionCmd (ResourceGroup.ID rg) assign
                         (SelectedDefinitionIDs m) (Ticket m) (RequestUser m)
                         (ExpirationDate m)))
      else Ok (m, None)

  | StepError | StepDone | StepLoadingAssignmentDefinitions
  | StepLoadingAssignments | StepLoadingSubscriptions
  | StepLoadingResourceGroups | StepCreating =>
      (* No interactive keys beyond quit for these states. *)
      Ok (m, None)
  end.

Definition Update (clock : string) (m : Model) (msg : Msg)
  : Res (Model * option Cmd) :=
  match msg with
  | keyMsg k =>
      if keyIn k ["ctrl+c"; "q"] then Ok (m, Some Quit)
      else handleKey clock m k

  | subscriptionsLoadedMsg subscriptions err =>
      match err with
      | Some e => Ok (Fail e m)
      | None =>
          if len subscriptions =? 0 then
            Ok (Fail "no subscriptions returned by Azure CLI" m)
          else
            let m := setSubscriptions subscriptions m in
            let m := setCursor 0 m in
            let m := setSelectedSubscription (-1) m in
            let m := setStep StepSelectSubscription m in
            let m := setStatus
              "Use ↑/↓ to highlight a subscription and press Enter to continue."
              m in
            Ok (m, None)
      end

  | assignmentsLoadedMsg assignments err =>
      match err with
      | Some e => Ok (Fail e m)
      | None =>
          if len assignments =? 0 then
            let! sub := CurrentSubscription m in
            let! short := Subscription.ShortID sub in
            Ok (Fail ("no policy assignments were returned for subscription "
                      +:+ Subscription.Name sub +:+ " (" +:+ short +:+ ")") m)
          else
            let m := setAssignments assignments m in
            let m := setSelectedAssignment (-1) m in
            let m := setAssignmentDefinitions [] m in
            let m := setSelectedDefinitionIDs ∅ m in
            let m := setPartialExemption false m in
            let m := setCursor 0 m in
            let m := setStep StepSelectAssignment m in
            let m := setStatus
              "Use ↑/↓ to highlight an assignment and press Enter to continue."
              m in
            Ok (m, None)
      end

  | assignmentDefinitionsLoadedMsg definitions err =>
      match err with
      | Some e => Ok (Fail e m)
      | None =>
          let m := setAssignmentDefinitions definitions m in
          let m := setSelectedDefinitionIDs ∅ m in
          let m := setPartialExemption false m in
          if len definitions >? 1 then
            let m := setStep StepAssignmentScope m in
            let m := setCursor 0 m in
            let m := setStatus
              "Exempt entire assignment or select specific definitions?" m in
            Ok (m, None)
          else
            let m := setPartialExemption false m in
            let m := setStep StepLoadingResourceGroups m in
            let m := setStatus "Loading resource groups..." m in
            let! sub := CurrentSubscription m in
            Ok (m, Some (fetchResourceGroupsCmd sub))
      end

  | resourceGroupsLoadedMsg resourceGroups err =>
      match err with
      | Some e => Ok (Fail e m)
      | None =>
          (* Prepend "Entire Subscription" option *)
          let! sub := CurrentSubscription m in
          let entireSub :=
            {| ResourceGroup.Name := "Entire Subscription";
               ResourceGroup.ID := Subscription.Scope sub |} in
          let m := setResourceGroups ([entireSub] ++ resourceGroups) m in
          let m := setSelectedResourceGroup (-1) m in
          let m := setCursor 0 m in
          let m := setStep StepSelectResourceGroup m in
          let m := setStatus
            "Select the scope for the exemption (Subscription or Resource Group)."
            m in
          Ok (m, None)
      end

  | exemptionCreatedMsg output err =>
      match err with
      | Some e => Ok (Fail e m)
      | None =>
          let m := setCreateOutput output m in
          let m := setStep StepDone m in
          let m := setStatus
            "Exemption created successfully. Press q to exit." m in
          Ok (m, None)
      end

  | otherMsg => Ok (m, None)
  end.

(** ** The machine as a whole *)

(** The states of the wizard: the initial model and whatever [Update] makes
    of a state on any event; an event that makes [Update] panic ends the
    program and leads nowhere. *)
Inductive reachable : Model → Prop :=
| reachable_init : reachable NewModel
| reachable_step clock m msg m' cmd :
    reachable m → Update clock m msg = Ok (m', cmd) → reachable m'.

(** Feeding a sequence of events, each with the clock reading of its time. *)
Fixpoint run (m : Model) (events : list (string * Msg)) : Res Model :=
  match events with
  | [] => Ok m
  | (clock, msg) :: rest =>
      let! r := Update clock m msg in
      run r.1 rest
  end.

(** The Enter key and the space key. *)
Definition enterKey : KeyMsg := mkKey KeyEnter "enter".
Definition spaceKey : KeyMsg := mkKey KeyOther " ".

(** The number of entries of the list the step shows, as [View] draws it:
    the slice of the step for the four selection steps, the two fixed options
    of [StepAssignmentScope] and [StepExpirationChoice], no list elsewhere. *)
Definition currentListLen (m : Model) : option Z :=
  match Step m with
  | StepSelectSubscription => Some (len (Subscriptions m))
  | StepSelectAssignment => Some (len (Assignments m))
  | StepAssignmentScope => Some 2
  | StepSelectDefinitions => Some (len (AssignmentDefinitions m))
  | StepSelectResourceGroup => Some (len (ResourceGroups m))
  | StepExpirationChoice => Some 2
  | _ => None
  end.

(** The backend operations ([azure.Client] methods) and the ones a command
    runs when the runtime executes it. *)
Inductive Operation : Type :=
| ListSubscriptions
| ListAssignments
| ListAssignmentDefinitions
| ListResourceGroups
| CreateExemption.

Definition operations (cmd : option Cmd) : list Operation :=
  match cmd with
  | Some fetchSubscriptionsCmd => [ListSubscriptions]
  | Some (fetchAssignmentsCmd _) => [ListAssignments]
  | Some (fetchAssignmentDefinitionsCmd _) => [ListAssignmentDefinitions]
  | Some (fetchResourceGroupsCmd _) => [ListResourceGroups]
  | Some (createExemptionCmd _ _ _ _ _ _) => [CreateExemption]
  | Some Quit | Some (textCmd _) | None => []
  end.

(** The operation a waiting step waits for. *)
Definition stepOperation (s : step) : option Operation :=
  match s with
  | StepLoadingSubscriptions => Some ListSubscriptions
  | StepLoadingAssignments => Some ListAssignments
  | StepLoadingAssignmentDefinitions => Some ListAssignmentDefinitions
  | StepLoadingResourceGroups => Some ListResourceGroups
  | StepCreating => Some CreateExemption
  | _ => None
  end.

(** The command a waiting step is entered with: the operation of the step on
    the current selections of the model. *)
Definition stepCommand (m : Model) : Res (option Cmd) :=
  match Step m with
  | StepLoadingAssignments =>
      let! sub := CurrentSubscription m in
      Ok (Some (fetchAssignmentsCmd sub))
  | StepLoadingAssignmentDefinitions =>
      let! assign := CurrentAssignment m in
      Ok (Some (fetchAssignmentDefinitionsCmd assign))
  | StepLoadingResourceGroups =>
      let! sub := CurrentSubscription m in
      Ok (Some (fetchResourceGroupsCmd sub))
  | StepCreating =>
      let! assign := CurrentAssignment m in
      let! rg := index (ResourceGroups m) (SelectedResourceGroup m) in
      Ok (Some (createExemptionCmd (ResourceGroup.ID rg) assign
                  (SelectedDefinitionIDs m) (Ticket m) (RequestUser m)
                  (ExpirationDate m)))
  | _ => Ok None
  end.

(** A selection field is unset ([-1]) or a valid index. *)
Definition unsetOrIndex (i n : Z) : Prop := i = -1 ∨ 0 ≤ i < n.

(** What holds in every state of the wizard. *)
Record Inv (m : Model) : Prop := mkInv {
  inv_cursor : ∀ n, currentListLen m = Some n → 0 ≤ Cursor m < n;
  inv_definitions :
    Step m = StepAssignmentScope ∨ Step m = StepSelectDefinitions →
    1 < len (AssignmentDefinitions m);
  inv_subscription :
    unsetOrIndex (SelectedSubscription m) (len (Subscriptions m));
  inv_assignment : unsetOrIndex (SelectedAssignment m) (len (Assignments m));
  inv_resourceGroup :
    unsetOrIndex (SelectedResourceGroup m) (len (ResourceGroups m));
  inv_selected : ∀ id b, SelectedDefinitionIDs m !! id = Some b → b = true;
  inv_scope : Step m = StepAssignmentScope → SelectedDefinitionIDs m = ∅;
  inv_select : Step m = StepSelectDefinitions → PartialExemption m = true;
  inv_partial : SelectedDefinitionIDs m ≠ ∅ → PartialExemption m = true
}.

(** The status message of a rejected Enter, by step. *)
Definition rejectedStatus (s : step) : string :=
  match s with
  | StepTicket => "A ticket number is required."
  | StepUsers => "At least one requester name is required."
  | StepSelectDefinitions =>
      "Select at least one definition or choose full assignment."
  | StepConfirm => "Missing information. Use q to abort."
  | _ => ""
  end.

(** The four ways Enter is rejected. *)
Definition rejected (m : Model) : Prop :=
  (Step m = StepTicket ∧
   TrimSpace (Value (inputUpdate (TicketInput m) enterKey).1) = "") ∨
  (Step m = StepUsers ∧
   TrimSpace (Value (inputUpdate (UserInput m) enterKey).1) = "") ∨
  (Step m = StepSelectDefinitions ∧ SelectedDefinitionIDs m = ∅) ∨
  (Step m = StepConfirm ∧
   (SelectedAssignment m < 0 ∨ Ticket m = "" ∨ RequestUser m = "" ∨
    SelectedSubscription m < 0 ∨ SelectedResourceGroup m < 0)).

(** The state the wizard is in after a sequence of events (the initial state
    again, had one of them made the program panic). *)
Definition stateAfter (events : list (string * Msg)) : Model :=
  match run NewModel events with
  | Ok m => m
  | Panic => NewModel
  end.

End Wizard.

(** ** A session, for running the machine *)

Definition prod : Subscription.t := Subscription.mk "/subscriptions/a" "Prod".

Definition initiative : PolicyAssignment.t :=
  PolicyAssignment.mk
    "/subscriptions/a/providers/Microsoft.Authorization/policyAssignments/sec"
    "sec" "Security baseline" "/subscriptions/a" "/providers/sets/baseline".

Definition tls : PolicyDefinitionRef.t :=
  PolicyDefinitionRef.mk "/providers/defs/tls" "tls" "Require TLS".

Definition disk : PolicyDefinitionRef.t :=
  PolicyDefinitionRef.mk "/providers/defs/disk" "disk" "Encrypt disks".

Definition shop : ResourceGroup.t :=
  ResourceGroup.mk "/subscriptions/a/resourceGroups/shop" "shop".

Definition key (name : string) : string * Msg :=
  ("2024-06-15", keyMsg (mkKey KeyOther name)).

Definition enter : string * Msg :=
  ("2024-06-15", keyMsg (mkKey KeyEnter "enter")).

Definition typed (text : string) : string * Msg :=
  ("2024-06-15", keyMsg (mkKey KeyRunes text)).

Definition loaded (msg : Msg)
  : string * Msg := ("2024-06-15", msg).

(** Up to the list of subscriptions. *)
Definition toSelectSubscription : list (string * Msg) :=
  [ loaded (subscriptionsLoadedMsg [prod] None) ].

(** On to the list of the definitions of the initiative. *)
Definition toSelectDefinitions : list (string * Msg) :=
  toSelectSubscription ++
  [ enter;
    loaded (assignmentsLoadedMsg [initiative] None);
    enter;
    loaded (assignmentDefinitionsLoadedMsg [tls; disk] None);
    key "down";
    enter ].

(** On to the input of the expiration date, pre-filled by the clock. *)
Definition toExpirationDate : list (string * Msg) :=
  toSelectDefinitions ++
  [ key " ";
    enter;
    loaded (resourceGroupsLoadedMsg [shop] None);
    key "down";
    enter;
    typed "INC1";
    enter;
    typed "alice";
    enter;
    key "down";
    enter ].

(** The last path segment of an identifier: what follows its last slash, the
    whole identifier when it has none. *)
Fixpoint lastPathSegmentFrom (acc s : string) : string :=
  match s with
  | EmptyString => acc
  | String c r =>
      if Ascii.eqb c "/" then lastPathSegmentFrom "" r
      else lastPathSegmentFrom (acc +:+ String c "") r
  end.

Definition lastPathSegment (s : string) : string := lastPathSegmentFrom "" s.

(** [part] occurs in [s]. *)
Definition embeds (s part : string) : Prop :=
  ∃ before after, s = before +:+ part +:+ after.

(** ** More of the packages [azure] and [tui] *)

(** [s] contains a slash. *)
Fixpoint hasSlash (s : string) : bool :=
  match s with
  | EmptyString => false
  | String c r => Ascii.eqb c "/" || hasSlash r
  end.

(** A path of segments: each segment after a slash. *)
Fixpoint joinPath (segments : list string) : string :=
  match segments with
  | [] => ""
  | segment :: rest => "/" +:+ segment +:+ joinPath rest
  end.

Definition toLowerASCII (c : ascii) : ascii :=
  let n := Z.of_nat (nat_of_ascii c) in
  if (65 <=? n) && (n <=? 90) then ascii_of_nat (nat_of_ascii c + 32) else c.

(** [strings.EqualFold(s, t)] of Go's standard library for a [t] of ASCII
    characters (the repository compares with four fixed words): [s] and [t]
    are equal up to the case of letters.  An ASCII byte of [s] matches the
    byte of [t] that is the same letter in either case; of the bytes beyond
    ASCII only the two characters that Unicode folds onto an ASCII letter
    match: U+017F (bytes 197, 191) matches [s] or [S], and U+212A (bytes 226,
    132, 170) matches [k] or [K]. *)
Fixpoint EqualFoldBytes (s t : list ascii) : bool :=
  match t with
  | [] => match s with [] => true | _ :: _ => false end
  | c :: t' =>
      match s with
      | [] => false
      | a :: s1 =>
          if Z.of_nat (nat_of_ascii a) <? 128 then
            Ascii.eqb (toLowerASCII a) (toLowerASCII c) && EqualFoldBytes s1 t'
          else if Ascii.eqb a (ascii_of_nat 197) then
            match s1 with
            | b :: s2 =>
                Ascii.eqb b (ascii_of_nat 191)
                && Ascii.eqb (toLowerASCII c) "s" && EqualFoldBytes s2 t'
            | [] => false
            end
          else if Ascii.eqb a (ascii_of_nat 226) then
            match s1 with
            | b1 :: b2 :: s3 =>
                Ascii.eqb b1 (ascii_of_nat 132)
                && Ascii.eqb b2 (ascii_of_nat 170)
                && Ascii.eqb (toLowerASCII c) "k" && EqualFoldBytes s3 t'
            | _ => false
            end
          else false
      end
  end.

Definition EqualFold (s t : string) : bool :=
  EqualFoldBytes (list_ascii_of_string s) (list_ascii_of_string t).

(** The loop of [parsePolicyID] from index [i] on: [parts] holds [parts[i:]],
    so that [parts[i+1]] exists exactly when a second element does. *)
Fixpoint parsePolicyParts (parts : list string)
    (name subscription managementGroup : string) : string * string * string :=
  match parts with
  | [] => (name, subscription, managementGroup)
  | part :: rest =>
      match rest with
      | [] => (name, subscription, managementGroup)
      | next :: _ =>
          let subscription :=
            if EqualFold part "subscriptions" then next else subscription in
          let managementGroup :=
            if EqualFold part "managementGroups" then next
            else managementGroup in
          let name :=
            if EqualFold part "policySetDefinitions"
               || EqualFold part "policyDefinitions"
            then next else name in
          parsePolicyParts rest name subscription managementGroup
      end
  end.

(** [(c *Client) parsePolicyID(id)]: [(name, subscription, managementGroup)] *)
Definition parsePolicyID (id : string) : string * string * string :=
  let parts := Split id "/" in
  parsePolicyParts parts "" "" "".

(** Go's [int] on a 64-bit platform: a result outside [-2^63, 2^63) wraps
    around. *)
Definition maxInt : Z := 2 ^ 63 - 1.

Definition wrapInt (z : Z) : Z := (z + 2 ^ 63) mod 2 ^ 64 - 2 ^ 63.

Definition visibleRange (cursor total limit : Z) : Z * Z :=
  if (limit <=? 0) || (total <=? limit) then (0, total)
  else
    let start := wrapInt (cursor - limit ÷ 2) in
    let start := if start <? 0 then 0 else start in
    let end_ := wrapInt (start + limit) in
    if end_ >? total then
      let end_ := total in
      let start := wrapInt (end_ - limit) in
      (start, end_)
    else (start, end_).

(** ** More of the machine *)

Section WizardFlow.
Context `{TI : TextInput}.

(** The value of a [Step] constant ([iota]). *)
Definition stepIndex (s : step) : Z :=
  match s with
  | StepLoadingSubscriptions => 0
  | StepSelectSubscription => 1
  | StepLoadingAssignments => 2
  | StepSelectAssignment => 3
  | StepLoadingAssignmentDefinitions => 4
  | StepAssignmentScope => 5
  | StepSelectDefinitions => 6
  | StepLoadingResourceGroups => 7
  | StepSelectResourceGroup => 8
  | StepTicket => 9
  | StepUsers => 10
  | StepExpirationChoice => 11
  | StepExpirationDate => 12
  | StepConfirm => 13
  | StepCreating => 14
  | StepDone => 15
  | StepError => 16
  end.

(** The steps from the ticket to the confirmation, which follow the choice of
    a resource group. *)
Definition detailStep (s : step) : bool :=
  (9 <=? stepIndex s) && (stepIndex s <=? 13).

(** More of what holds in every state of the wizard: what the fields hold
    that the later steps and the create command read. *)
Record FlowInv (m : Model) : Prop := mkFlowInv {
  flow_selected :
    ∀ id, is_Some (SelectedDefinitionIDs m !! id) →
          ∃ ref, ref ∈ AssignmentDefinitions m ∧
                 PolicyDefinitionRef.ReferenceID ref = id;
  flow_expiration :
    ExpirationDate m = "" ∨ timeParseDate (ExpirationDate m) = true;
  flow_error : Step m = StepError → Err m ≠ None;
  flow_resourceGroup :
    detailStep (Step m) = true →
    0 ≤ SelectedResourceGroup m < len (ResourceGroups m);
  flow_ticket :
    detailStep (Step m) = true → Step m ≠ StepTicket → Ticket m ≠ "";
  flow_users :
    detailStep (Step m) = true → Step m ≠ StepTicket → Step m ≠ StepUsers →
    RequestUser m ≠ ""
}.

(** The reference ids the closure of [createExemptionCmd] hands to the
    backend: [for ref := range selectedDefinitionIDs] visits every key of the
    map once, whatever its value, in an order Go leaves open. *)
Definition createExemptionRefs (selectedDefinitionIDs : gmap string bool)
    (refs : list string) : Prop :=
  refs ≡ₚ (map_to_list selectedDefinitionIDs).*1.

(** *** The wizard under the Bubble Tea runtime *)

(** What the runtime hands to [Update] once it has run a command: each of
    the five commands of the package ends by returning the message of its own
    kind, filled with whatever the backend answered; a command of the text
    input gives a message that is not one of the package's.  [tea.Quit] gives
    nothing to [Update]: it ends the program. *)
Inductive delivers : Cmd → Msg → Prop :=
| delivers_subscriptions subscriptions err :
    delivers fetchSubscriptionsCmd (subscriptionsLoadedMsg subscriptions err)
| delivers_assignments sub assignments err :
    delivers (fetchAssignmentsCmd sub) (assignmentsLoadedMsg assignments err)
| delivers_definitions assignment definitions err :
    delivers (fetchAssignmentDefinitionsCmd assignment)
             (assignmentDefinitionsLoadedMsg definitions err)
| delivers_resourceGroups sub resourceGroups err :
    delivers (fetchResourceGroupsCmd sub)
             (resourceGroupsLoadedMsg resourceGroups err)
| delivers_created scope assignment selected ticket users expirationDate
                   output err :
    delivers (createExemptionCmd scope assignment selected ticket users
                                 expirationDate)
             (exemptionCreatedMsg output err)
| delivers_text c : delivers (textCmd c) otherMsg.

(** A run of the program ([tea.NewProgram(NewModel(...)).Run()]): the model
    and the commands the runtime has been handed and has not answered yet.
    The runtime starts with the command of [Init]; it passes every key and
    every message of its own to [Update]; it answers the commands in flight
    in any order, each once, with the message the command returns; and it
    takes over the command [Update] returns. *)
Inductive session : Model → list Cmd → Prop :=
| session_start : session NewModel (option_list (Init NewModel))
| session_key clock m flight k m' cmd :
    session m flight →
    Update clock m (keyMsg k) = Ok (m', cmd) →
    session m' (flight ++ option_list cmd)
| session_other clock m flight m' cmd :
    session m flight →
    Update clock m otherMsg = Ok (m', cmd) →
    session m' (flight ++ option_list cmd)
| session_answer clock m before c after msg m' cmd :
    session m (before ++ c :: after) →
    delivers c msg →
    Update clock m msg = Ok (m', cmd) →
    session m' (before ++ after ++ option_list cmd).

(** The backend operations of the commands in flight. *)
Definition operationsInFlight (flight : list Cmd) : list Operation :=
  concat ((λ c, operations (Some c)) <$> flight).

(** The steps after the choice of a subscription, and after the choice of an
    assignment, up to the final step. *)
Definition pastSubscription (s : step) : bool :=
  (2 <=? stepIndex s) && (stepIndex s <=? 15).

Definition pastAssignment (s : step) : bool :=
  (4 <=? stepIndex s) && (stepIndex s <=? 15).

(** The steps from the list of resource groups to the final step. *)
Definition pastResourceGroups (s : step) : bool :=
  (8 <=? stepIndex s) && (stepIndex s <=? 15).

(** What holds of the model and the commands in flight throughout a run. *)
Record SessionInv (m : Model) (flight : list Cmd) : Prop := mkSessionInv {
  session_flight :
    operationsInFlight flight = option_list (stepOperation (Step m));
  session_subscription :
    pastSubscription (Step m) = true →
    0 ≤ SelectedSubscription m < len (Subscriptions m);
  session_assignment :
    pastAssignment (Step m) = true →
    0 ≤ SelectedAssignment m < len (Assignments m);
  session_resourceGroups :
    pastResourceGroups (Step m) = true →
    ∃ sub,
      Subscriptions m !! Z.to_nat (SelectedSubscription m) = Some sub ∧
      ResourceGroups m !! 0%nat =
        Some (ResourceGroup.mk (Subscription.Scope sub) "Entire Subscription")
}.

(** Running a session on a list of events, for concrete runs: a key or a
    message of the runtime's own goes to [Update]; a completion message
    answers the first command in flight that returns a message of its kind,
    and the run stops ([None]) if there is none or if [Update] panics. *)
Definition returnsMsg (c : Cmd) (msg : Msg) : bool :=
  match c, msg with
  | fetchSubscriptionsCmd, subscriptionsLoadedMsg _ _ => true
  | fetchAssignmentsCmd _, assignmentsLoadedMsg _ _ => true
  | fetchAssignmentDefinitionsCmd _, assignmentDefinitionsLoadedMsg _ _ => true
  | fetchResourceGroupsCmd _, resourceGroupsLoadedMsg _ _ => true
  | createExemptionCmd _ _ _ _ _ _, exemptionCreatedMsg _ _ => true
  | _, _ => false
  end.

Fixpoint takeAnswered (flight : list Cmd) (msg : Msg) : option (list Cmd) :=
  match flight with
  | [] => None
  | c :: rest =>
      if returnsMsg c msg then Some rest
      else cons c <$> takeAnswered rest msg
  end.

Fixpoint runSession (m : Model) (flight : list Cmd)
    (events : list (string * Msg)) : option (Model * list Cmd) :=
  match events with
  | [] => Some (m, flight)
  | (clock, msg) :: rest =>
      match msg with
      | keyMsg _ | otherMsg =>
          match Update clock m msg with
          | Ok (m', cmd) => runSession m' (flight ++ option_list cmd) rest
          | Panic => None
          end
      | _ =>
          match takeAnswered flight msg, Update clock m msg with
          | Some flight', Ok (m', cmd) =>
              runSession m' (flight' ++ option_list cmd) rest
          | _, _ => None
          end
      end
  end.

(** *** The screen *)

(** What [View] takes from outside the package: the look of the line under
    the cursor ([selectedStyle.Render] of [lipgloss]) and the text a text
    input draws ([textinput.Model.View]). *)
Class Screen : Type := {
  Render : string → string;
  inputView : textinput → string
}.

Context `{SC : Screen}.

Definition maxVisibleSubscriptions : Z := 15.

(** The newline of the Go string literals. *)
Definition nl : string := String (ascii_of_nat 10) "".

(** [%d] *)
Definition decimal (z : Z) : string := pretty z.

(** [count] rounds of a loop body from index [i] on, each writing to the
    string builder. *)
Fixpoint forRange (count : nat) (i : Z) (body : Z → Res string) : Res string :=
  match count with
  | O => Ok ""
  | S n =>
      let! line := body i in
      let! rest := forRange n (i + 1) body in
      Ok (line +:+ rest)
  end.

(** [for i := start; i < end; i++ { body }] *)
Definition forLoop (start end_ : Z) (body : Z → Res string) : Res string :=
  forRange (Z.to_nat (end_ - start)) start body.

(** A line of a list: the cursor sign, the text, and the look of the line
    under the cursor. *)
Definition cursorLine (i cursor : Z) (text : string → string) : string :=
  let sign := if i =? cursor then ">" else " " in
  let line := text sign in
  let line := if i =? cursor then Render line else line in
  line +:+ nl.

(** [for _, ref := range m.AssignmentDefinitions], writing the selected ones
    after [bullet]. *)
Definition selectedDefinitionLines (bullet : string) (m : Model) : string :=
  foldr (λ ref rest,
           (if default false (SelectedDefinitionIDs m
                              !! PolicyDefinitionRef.ReferenceID ref)
            then bullet +:+ PolicyDefinitionRef.DisplayName ref +:+ " ("
                 +:+ PolicyDefinitionRef.ReferenceID ref +:+ ")" +:+ nl
            else "") +:+ rest)
        "" (AssignmentDefinitions m).

(** The two fixed options of a choice. *)
Definition optionLines (m : Model) (options : list string) : string :=
  foldr (λ '(i, opt) rest,
           cursorLine (Z.of_nat i) (Cursor m) (λ sign, sign +:+ " " +:+ opt)
           +:+ rest)
        "" (imap (λ i opt, (i, opt)) options).

Definition showing (start end_ total : Z) : string :=
  nl +:+ "Showing " +:+ decimal (start + 1) +:+ "-" +:+ decimal end_
  +:+ " of " +:+ decimal total +:+ nl.

Definition View (m : Model) : Res string :=
  let title := "Azure Policy Exemption CLI" +:+ nl +:+ nl in
  let! body :=
    match Step m with
    | StepLoadingSubscriptions =>
        Ok ("Retrieving subscriptions via Azure CLI..." +:+ nl)

    | StepSelectSubscription =>
        let '(start, end_) :=
          visibleRange (Cursor m) (len (Subscriptions m))
                       maxVisibleSubscriptions in
        let! lines :=
          forLoop start end_ (λ i,
            let! sub := index (Subscriptions m) i in
            let marker := if i =? SelectedSubscription m then "x" else " " in
            let! short := Subscription.ShortID sub in
            Ok (cursorLine i (Cursor m) (λ sign,
                  sign +:+ " [" +:+ marker +:+ "] " +:+ Subscription.Name sub
                  +:+ " (" +:+ short +:+ ")"))) in
        Ok ("Select the subscription for the exemption:" +:+ nl +:+ nl
            +:+ lines
            +:+ showing start end_ (len (Subscriptions m))
            +:+ "↑/↓ to move, Enter to select." +:+ nl)

    | StepLoadingAssignments =>
        Ok ("Loading policy assignments for the selected subscription..."
            +:+ nl)

    | StepSelectAssignment =>
        let! sub := CurrentSubscription m in
        let! short := Subscription.ShortID sub in
        let '(start, end_) :=
          visibleRange (Cursor m) (len (Assignments m))
                       maxVisibleSubscriptions in
        let! lines :=
          forLoop start end_ (λ i,
            let! assign := index (Assignments m) i in
            let marker := if i =? SelectedAssignment m then "x" else " " in
            let! shortID := PolicyAssignment.ShortID assign in
            Ok (cursorLine i (Cursor m) (λ sign,
                  sign +:+ " [" +:+ marker +:+ "] "
                  +:+ PolicyAssignment.DisplayLabel assign
                  +:+ " (" +:+ shortID +:+ ")"))) in
        Ok ("Policy assignments for subscription " +:+ Subscription.Name sub
            +:+ " (" +:+ short +:+ "):" +:+ nl +:+ nl
            +:+ lines
            +:+ showing start end_ (len (Assignments m))
            +:+ "↑/↓ to move, Enter to select." +:+ nl)

    | StepLoadingAssignmentDefinitions =>
        Ok ("Loading assignment details..." +:+ nl)

    | StepAssignmentScope =>
        Ok ("This assignment contains multiple policy definitions." +:+ nl
            +:+ nl
            +:+ optionLines m ["Exempt entire assignment";
                               "Exempt specific definitions"]
            +:+ nl +:+ "↑/↓ to move, Enter to choose." +:+ nl)

    | StepSelectDefinitions =>
        let '(start, end_) :=
          visibleRange (Cursor m) (len (AssignmentDefinitions m))
                       maxVisibleSubscriptions in
        let! lines :=
          forLoop start end_ (λ i,
            let! ref := index (AssignmentDefinitions m) i in
            let marker :=
              if default false (SelectedDefinitionIDs m
                                !! PolicyDefinitionRef.ReferenceID ref)
              then "x" else " " in
            Ok (cursorLine i (Cursor m) (λ sign,
                  sign +:+ " [" +:+ marker +:+ "] "
                  +:+ PolicyDefinitionRef.DisplayName ref
                  +:+ " (" +:+ PolicyDefinitionRef.ReferenceID ref +:+ ")")))
        in
        Ok ("Select the policy definitions to exempt:" +:+ nl +:+ nl
            +:+ lines
            +:+ showing start end_ (len (AssignmentDefinitions m))
            +:+ "↑/↓ to move, Space to toggle, Enter to continue." +:+ nl)

    | StepLoadingResourceGroups =>
        Ok ("Loading resource groups..." +:+ nl)

    | StepSelectResourceGroup =>
        let '(start, end_) :=
          visibleRange (Cursor m) (len (ResourceGroups m))
                       maxVisibleSubscriptions in
        let! lines :=
          forLoop start end_ (λ i,
            let! rg := index (ResourceGroups m) i in
            let marker := if i =? SelectedResourceGroup m then "x" else " " in
            Ok (cursorLine i (Cursor m) (λ sign,
                  sign +:+ " [" +:+ marker +:+ "] "
                  +:+ ResourceGroup.Name rg))) in
        Ok ("Select the scope for the exemption:" +:+ nl +:+ nl
            +:+ lines
            +:+ showing start end_ (len (ResourceGroups m))
            +:+ "↑/↓ to move, Enter to select." +:+ nl)

    | StepTicket =>
        let! assign := CurrentAssignment m in
        Ok ("Assignment selected: " +:+ PolicyAssignment.DisplayLabel assign
            +:+ nl +:+ nl
            +:+ (if PartialExemption m
                    && (Z.of_nat (size (SelectedDefinitionIDs m)) >? 0)
                 then "Definitions selected:" +:+ nl
                      +:+ selectedDefinitionLines "• " m +:+ nl
                 else "")
            +:+ "Provide the tracking ticket number linked to this exemption:"
            +:+ nl +:+ nl
            +:+ inputView (TicketInput m) +:+ nl)

    | StepUsers =>
        let! assign := CurrentAssignment m in
        Ok ("Ticket: " +:+ Ticket m +:+ nl +:+ "Assignment: "
            +:+ PolicyAssignment.DisplayLabel assign +:+ nl +:+ nl
            +:+ "Who is requesting this exemption? (comma separated)"
            +:+ nl +:+ nl
            +:+ inputView (UserInput m) +:+ nl)

    | StepExpirationChoice =>
        Ok ("Do you want to set an expiration date?" +:+ nl +:+ nl
            +:+ optionLines m ["Unlimited (No expiration)";
                               "Set expiration date"]
            +:+ nl +:+ "↑/↓ to move, Enter to choose." +:+ nl)

    | StepExpirationDate =>
        Ok ("Enter the expiration date (YYYY-MM-DD):" +:+ nl +:+ nl
            +:+ inputView (ExpirationInput m) +:+ nl)

    | StepConfirm =>
        let! sub := CurrentSubscription m in
        let! assign := CurrentAssignment m in
        let! rg := index (ResourceGroups m) (SelectedResourceGroup m) in
        let! short := Subscription.ShortID sub in
        Ok ("Subscription: " +:+ Subscription.Name sub +:+ " (" +:+ short
            +:+ ")" +:+ nl
            +:+ "Scope: " +:+ ResourceGroup.Name rg +:+ nl
            +:+ "Assignment: " +:+ PolicyAssignment.DisplayLabel assign +:+ nl
            +:+ (if PartialExemption m
                    && (Z.of_nat (size (SelectedDefinitionIDs m)) >? 0)
                 then "Definitions:" +:+ nl +:+ selectedDefinitionLines "  " m
                 else "Definitions: Entire assignment" +:+ nl)
            +:+ "Ticket: " +:+ Ticket m +:+ nl
            +:+ "Requesters: " +:+ RequestUser m +:+ nl
            +:+ (if negb (ExpirationDate m =? "")%string
                 then "Expires on: " +:+ ExpirationDate m +:+ nl
                 else "Expires on: Unlimited" +:+ nl)
            +:+ nl +:+ "Press Enter to create the exemption or q to abort."
            +:+ nl)

    | StepCreating =>
        Ok ("Creating policy exemption via Azure CLI..." +:+ nl)

    | StepDone =>
        Ok ("Azure CLI response:" +:+ nl +:+ nl
            +:+ (if (CreateOutput m =? "")%string
                 then "No output returned." +:+ nl
                 else CreateOutput m +:+ nl)
            +:+ nl +:+ "Press q to exit." +:+ nl)

    | StepError =>
        Ok ("Error: " +:+ default "<nil>" (Err m) +:+ nl +:+ nl
            +:+ "Press q to exit." +:+ nl)
    end in
  let status :=
    if negb (Status m =? "")%string then nl +:+ Status m +:+ nl else "" in
  Ok (title +:+ body +:+ status).

(** The four lists are short enough for the arithmetic of [visibleRange] on
    their lengths not to overflow a Go [int]. *)
Definition listsFit (m : Model) : Prop :=
  len (Subscriptions m) + maxVisibleSubscriptions ≤ maxInt ∧
  len (Assignments m) + maxVisibleSubscriptions ≤ maxInt ∧
  len (AssignmentDefinitions m) + maxVisibleSubscriptions ≤ maxInt ∧
  len (ResourceGroups m) + maxVisibleSubscriptions ≤ maxInt.

End WizardFlow.

(** A plain screen for concrete runs: no styling, and a text input draws its
    text. *)
Instance plainScreen : Screen (TI := plainTextInput) := {|
  Render := λ line, line;
  inputView := plainValue
|}.

(** On from the date to the confirmation. *)
Definition toConfirm : list (string * Msg) := toExpirationDate ++ [ enter ].

(** A run that fails at once. *)
Definition toError : list (string * Msg) :=
  [ loaded (subscriptionsLoadedMsg [] (Some "az: not logged in")) ].


(** * Properties *)

(** ** Slices and strings *)

Lemma len_nonneg {A} (l : list A) : 0 ≤ len l.
Proof. unfold len. lia. Qed.

Lemma len_cons {A} (x : A) (l : list A) : len (x :: l) = len l + 1.
Proof. unfold len. simpl. lia. Qed.

Lemma len_zero {A} (l : list A) : len l = 0 ↔ l = [].
Proof.
  unfold len. split.
  - destruct l; [done | simpl; lia].
  - by intros ->.
Qed.

Lemma index_in_range {A} (l : list A) (i : Z) :
  0 ≤ i < len l → ∃ x, index l i = Ok x ∧ l !! Z.to_nat i = Some x.
Proof.
  intros [Hlo Hhi]. unfold index.
  destruct (Z.ltb_spec i 0) as [?|_]; [lia|].
  destruct (lookup_lt_is_Some_2 l (Z.to_nat i)) as [x Hx].
  { unfold len in Hhi. lia. }
  exists x. by rewrite Hx.
Qed.

Lemma index_out_of_range {A} (l : list A) (i : Z) :
  i < 0 ∨ len l ≤ i → index l i = Panic.
Proof.
  intros H. unfold index.
  destruct (Z.ltb_spec i 0) as [?|Hge]; [done|].
  rewrite lookup_ge_None_2; [done|].
  destruct H as [?|H]; [lia|]. unfold len in H. lia.
Qed.

Lemma Split_nonempty (s : string) (sep : ascii) : Split s sep ≠ [].
Proof.
  destruct s as [|c r]; simpl; [done|].
  destruct (Ascii.eqb c sep); [done|].
  by destruct (Split r sep).
Qed.

Lemma string_app_nil_r (s : string) : s +:+ "" = s.
Proof.
  induction s as [|c r IH]; [done|].
  change (String c (r +:+ "") = String c r). by rewrite IH.
Qed.

Lemma string_app_assoc (a b c : string) : (a +:+ b) +:+ c = a +:+ b +:+ c.
Proof.
  induction a as [|x r IH]; [done|].
  change (String x ((r +:+ b) +:+ c) = String x (r +:+ b +:+ c)).
  by rewrite IH.
Qed.

(** The last piece [Split] returns is the last path segment. *)
Lemma Split_last_from (s acc : string) :
  lastPathSegmentFrom acc s =
  match Split s "/" with
  | [h] => acc +:+ h
  | l => default "" (last l)
  end.
Proof.
  revert acc. induction s as [|c r IH]; intros acc; simpl.
  - by rewrite string_app_nil_r.
  - destruct (Ascii.eqb c "/") eqn:Hc.
    + rewrite IH. pose proof (Split_nonempty r "/") as Hne.
      destruct (Split r "/") as [|h [|h' t]]; done.
    + rewrite IH. pose proof (Split_nonempty r "/") as Hne.
      destruct (Split r "/") as [|h [|h' t]]; [done| |done].
      by rewrite string_app_assoc.
Qed.

Lemma index_last {A} (l : list A) (x : A) :
  last l = Some x → index l (len l - 1) = Ok x.
Proof.
  intros Hl. rewrite last_lookup in Hl.
  assert (l ≠ []) as Hne by (intros ->; done).
  assert (0 < len l) as Hpos.
  { pose proof (len_nonneg l). destruct (decide (len l = 0)) as [E|]; [|lia].
    by apply len_zero in E. }
  unfold index. destruct (Z.ltb_spec (len l - 1) 0) as [?|_]; [lia|].
  replace (Z.to_nat (len l - 1)) with (pred (length l)) by (unfold len; lia).
  by rewrite Hl.
Qed.

Lemma Split_index_last (s : string) :
  index (Split s "/") (len (Split s "/") - 1) = Ok (lastPathSegment s).
Proof.
  apply index_last. unfold lastPathSegment. rewrite Split_last_from.
  pose proof (Split_nonempty s "/") as Hne.
  destruct (Split s "/") as [|h [|h' t]] eqn:E; [done|done|].
  simpl. destruct (last (h' :: t)) eqn:El; [done|].
  by apply last_None in El.
Qed.

Example TrimSpace_ex1 : TrimSpace "  INC1 " = "INC1".
Proof. reflexivity. Qed.
Example TrimSpace_ex2 : TrimSpace (String (ascii_of_nat 9) " ") = "".
Proof. reflexivity. Qed.
Example TrimSpace_ex3 : TrimSpace " a b " = "a b".
Proof. reflexivity. Qed.
Example Split_ex1 : Split "/subscriptions/a" "/" = [""; "subscriptions"; "a"].
Proof. reflexivity. Qed.
Example Split_ex2 : Split "" "/" = [""].
Proof. reflexivity. Qed.
Example timeParseDate_ex1 : timeParseDate "2024-02-29" = true.
Proof. reflexivity. Qed.
Example timeParseDate_ex2 : timeParseDate "2023-02-29" = false.
Proof. reflexivity. Qed.
Example timeParseDate_ex3 : timeParseDate "2024-6-15" = false.
Proof. reflexivity. Qed.

(** ** The value types *)

Lemma Subscription_ShortID_total (s : Subscription.t) :
  ∃ short, Subscription.ShortID s = Ok short.
Proof.
  unfold Subscription.ShortID.
  destruct (HasPrefix _ _); simpl; [|by eexists].
  rewrite Split_index_last. by eexists.
Qed.

(** C9, as the spec has it, fails: the subscription with the identifier
    "a/b" has the short id "a/b", and the last path segment of "a/b" is
    "b". *)
Lemma ShortID_not_last_segment :
  let s := Subscription.mk "a/b" "Prod" in
  Subscription.ShortID s = Ok "a/b" ∧
  lastPathSegment (Subscription.ID s) = "b" ∧
  Subscription.ShortID s ≠ Ok (lastPathSegment (Subscription.ID s)).
Proof. by vm_compute. Qed.

(** C9, amended: the short id of a subscription is the last path segment
    of its identifier when the identifier starts with "/subscriptions/" (so
    "/subscriptions/a" gives "a"), and the identifier itself, unchanged,
    otherwise; the scope is the identifier itself when it starts with a
    slash and "/subscriptions/" followed by the identifier otherwise; both
    depend on nothing but the identifier. *)
Theorem Subscription_ShortID_Scope (s : Subscription.t) :
  Subscription.ShortID s =
    (if HasPrefix (Subscription.ID s) "/subscriptions/"
     then Ok (lastPathSegment (Subscription.ID s))
     else Ok (Subscription.ID s)) ∧
  Subscription.ShortID (Subscription.mk "/subscriptions/a" "Prod") = Ok "a" ∧
  Subscription.Scope s =
    (if HasPrefix (Subscription.ID s) "/" then Subscription.ID s
     else "/subscriptions/" +:+ Subscription.ID s) ∧
  (∀ s', Subscription.ID s' = Subscription.ID s →
         Subscription.ShortID s' = Subscription.ShortID s ∧
         Subscription.Scope s' = Subscription.Scope s).
Proof.
  split; [|split; [|split]].
  - unfold Subscription.ShortID.
    destruct (HasPrefix _ _); simpl; [|done]. apply Split_index_last.
  - reflexivity.
  - reflexivity.
  - intros s' E. unfold Subscription.ShortID, Subscription.Scope.
    by rewrite E.
Qed.

Section Transitions.
Context `{TI : TextInput}.

(** ** The accessors *)

Lemma CurrentSubscription_cases (m : Model) :
  ∃ sub, CurrentSubscription m = Ok sub ∧
    (0 ≤ SelectedSubscription m < len (Subscriptions m) →
     Subscriptions m !! Z.to_nat (SelectedSubscription m) = Some sub) ∧
    (Subscriptions m = [] → sub = Subscription.zero) ∧
    (Subscriptions m ≠ [] →
     ¬ (0 ≤ SelectedSubscription m < len (Subscriptions m)) →
     Subscriptions m !! 0%nat = Some sub).
Proof.
  unfold CurrentSubscription.
  pose proof (len_nonneg (Subscriptions m)) as Hn.
  destruct (Z.geb_spec (SelectedSubscription m) 0) as [Hlo|Hlo];
    destruct (Z.ltb_spec (SelectedSubscription m) (len (Subscriptions m)))
      as [Hhi|Hhi]; simpl.
  1: { destruct (index_in_range (Subscriptions m) (SelectedSubscription m))
         as (x & -> & Hx); [lia|].
       exists x. repeat split; [done| |lia].
       intros E. rewrite E in Hhi. unfold len in Hhi. simpl in Hhi. lia. }
  all: destruct (Z.eqb_spec (len (Subscriptions m)) 0) as [E|E];
    [ apply len_zero in E; exists Subscription.zero;
      repeat split; [rewrite E; unfold len; simpl; lia | done..]
    | destruct (index_in_range (Subscriptions m) 0) as (x & -> & Hx); [lia|];
      exists x; repeat split;
      [ lia | by intros E'; apply len_zero in E' | done ] ].
Qed.

Lemma CurrentAssignment_cases (m : Model) :
  ∃ a, CurrentAssignment m = Ok a ∧
    (0 ≤ SelectedAssignment m < len (Assignments m) →
     Assignments m !! Z.to_nat (SelectedAssignment m) = Some a) ∧
    (Assignments m = [] → a = PolicyAssignment.zero) ∧
    (Assignments m ≠ [] →
     ¬ (0 ≤ SelectedAssignment m < len (Assignments m)) →
     Assignments m !! 0%nat = Some a).
Proof.
  unfold CurrentAssignment.
  pose proof (len_nonneg (Assignments m)) as Hn.
  destruct (Z.geb_spec (SelectedAssignment m) 0) as [Hlo|Hlo];
    destruct (Z.ltb_spec (SelectedAssignment m) (len (Assignments m)))
      as [Hhi|Hhi]; simpl.
  1: { destruct (index_in_range (Assignments m) (SelectedAssignment m))
         as (x & -> & Hx); [lia|].
       exists x. repeat split; [done| |lia].
       intros E. rewrite E in Hhi. unfold len in Hhi. simpl in Hhi. lia. }
  all: destruct (Z.eqb_spec (len (Assignments m)) 0) as [E|E];
    [ apply len_zero in E; exists PolicyAssignment.zero;
      repeat split; [rewrite E; unfold len; simpl; lia | done..]
    | destruct (index_in_range (Assignments m) 0) as (x & -> & Hx); [lia|];
      exists x; repeat split;
      [ lia | by intros E'; apply len_zero in E' | done ] ].
Qed.

(** C10: [CurrentSubscription] and [CurrentAssignment] never panic: with a
    selection index that is valid for the list they return the element at
    that index, with an empty list the zero value, and with a non-empty list
    and an index out of range (such as -1) the first element. *)
Theorem Current_accessors_total (m : Model) :
  (∃ sub, CurrentSubscription m = Ok sub ∧
    (0 ≤ SelectedSubscription m < len (Subscriptions m) →
     Subscriptions m !! Z.to_nat (SelectedSubscription m) = Some sub) ∧
    (Subscriptions m = [] → sub = Subscription.zero) ∧
    (Subscriptions m ≠ [] →
     ¬ (0 ≤ SelectedSubscription m < len (Subscriptions m)) →
     Subscriptions m !! 0%nat = Some sub)) ∧
  (∃ a, CurrentAssignment m = Ok a ∧
    (0 ≤ SelectedAssignment m < len (Assignments m) →
     Assignments m !! Z.to_nat (SelectedAssignment m) = Some a) ∧
    (Assignments m = [] → a = PolicyAssignment.zero) ∧
    (Assignments m ≠ [] →
     ¬ (0 ≤ SelectedAssignment m < len (Assignments m)) →
     Assignments m !! 0%nat = Some a)).
Proof.
  split; [apply CurrentSubscription_cases | apply CurrentAssignment_cases].
Qed.

(** ** Completion events *)

(** C2: a resource-groups-loaded event without error that carries [n]
    groups stores [n + 1] groups: at index 0 the entry named "Entire
    Subscription" whose id is the scope of the current subscription, and
    after it the fetched groups in their order. *)
Theorem resourceGroups_loaded (clock : string) (m : Model)
    (resourceGroups : list ResourceGroup.t) :
  ∃ sub m',
    CurrentSubscription m = Ok sub ∧
    Update clock m (resourceGroupsLoadedMsg resourceGroups None)
      = Ok (m', None) ∧
    len (ResourceGroups m') = len resourceGroups + 1 ∧
    ResourceGroups m' !! 0%nat =
      Some (ResourceGroup.mk (Subscription.Scope sub) "Entire Subscription") ∧
    (∀ i : nat, ResourceGroups m' !! S i = resourceGroups !! i) ∧
    Step m' = StepSelectResourceGroup ∧
    Cursor m' = 0 ∧
    SelectedResourceGroup m' = -1.
Proof.
  destruct (CurrentSubscription_cases m) as (sub & Hsub & _).
  exists sub. eexists. split; [done|]. split.
  { unfold Update. rewrite Hsub. simpl. reflexivity. }
  simpl. rewrite len_cons. done.
Qed.

(** C1: a definitions-loaded event without error that carries at most one
    definition goes straight to [StepLoadingResourceGroups], with the fetch
    of the resource groups scheduled, [PartialExemption] false and no
    definition selected; one that carries two or more goes to
    [StepAssignmentScope] with the cursor at 0 and nothing scheduled. *)
Theorem definitions_loaded (clock : string) (m : Model)
    (definitions : list PolicyDefinitionRef.t) :
  (len definitions ≤ 1 →
   ∃ sub m',
     CurrentSubscription m = Ok sub ∧
     Update clock m (assignmentDefinitionsLoadedMsg definitions None)
       = Ok (m', Some (fetchResourceGroupsCmd sub)) ∧
     Step m' = StepLoadingResourceGroups ∧
     PartialExemption m' = false ∧
     SelectedDefinitionIDs m' = ∅ ∧
     AssignmentDefinitions m' = definitions) ∧
  (2 ≤ len definitions →
   ∃ m',
     Update clock m (assignmentDefinitionsLoadedMsg definitions None)
       = Ok (m', None) ∧
     Step m' = StepAssignmentScope ∧
     Cursor m' = 0 ∧
     PartialExemption m' = false ∧
     SelectedDefinitionIDs m' = ∅ ∧
     AssignmentDefinitions m' = definitions).
Proof.
  split; intros Hn.
  - destruct (CurrentSubscription_cases m) as (sub & Hsub & _).
    exists sub. eexists. split; [done|]. split.
    { unfold Update.
      destruct (Z.gtb_spec (len definitions) 1) as [?|_]; [lia|].
      unfold CurrentSubscription in *. simpl. rewrite Hsub. reflexivity. }
    done.
  - eexists. split.
    { unfold Update.
      destruct (Z.gtb_spec (len definitions) 1) as [_|?]; [|lia].
      reflexivity. }
    done.
Qed.

(** C3: a subscriptions-loaded event without error and with an empty list
    ends in [StepError] with the error "no subscriptions returned by Azure
    CLI", and an assignments-loaded event without error and with an empty
    list ends in [StepError] with an error whose text contains the name of
    the current subscription; neither stores the list nor enters a selection
    step. *)
Theorem empty_results_fail (clock : string) (m : Model) :
  (∃ m',
     Update clock m (subscriptionsLoadedMsg [] None) = Ok (m', None) ∧
     Step m' = StepError ∧
     Err m' = Some "no subscriptions returned by Azure CLI" ∧
     Subscriptions m' = Subscriptions m) ∧
  (∃ sub text m',
     CurrentSubscription m = Ok sub ∧
     Update clock m (assignmentsLoadedMsg [] None) = Ok (m', None) ∧
     Step m' = StepError ∧
     Err m' = Some text ∧
     embeds text (Subscription.Name sub) ∧
     Assignments m' = Assignments m).
Proof.
  split.
  - eexists. split; [reflexivity|done].
  - destruct (CurrentSubscription_cases m) as (sub & Hsub & _).
    destruct (Subscription_ShortID_total sub) as (short & Hshort).
    exists sub. eexists. eexists. split; [done|]. split.
    { unfold Update. simpl. rewrite Hsub. simpl. rewrite Hshort. simpl.
      reflexivity. }
    simpl. split; [done|]. split; [done|]. split; [|done].
    by eexists _, _.
Qed.

(** ** The invariant *)

Lemma NewModel_Inv : Inv NewModel.
Proof.
  split; simpl; try done; try (by left).
  by intros [?|?].
Qed.

Ltac crunch :=
  repeat match goal with
  | H : Panic = Ok _ |- _ => discriminate H
  | H : Ok _ = Ok _ |- _ => injection H as <- <-
  | H : context [let '(_, _) := ?p in _] |- _ => destruct p eqn:?
  | H : context [if ?c then _ else _] |- _ => destruct c eqn:?
  | H : context [bindRes ?r _] |- _ => destruct r eqn:?; simpl in H
  end.

Ltac to_Z :=
  repeat match goal with
  | H : (_ <? _) = true |- _ => apply Z.ltb_lt in H
  | H : (_ <? _) = false |- _ => apply Z.ltb_ge in H
  | H : (_ >? _) = true |- _ => apply Z.gtb_lt in H
  | H : (_ >? _) = false |- _ => rewrite Z.gtb_ltb in H; apply Z.ltb_ge in H
  | H : (_ =? _) = true |- _ => apply Z.eqb_eq in H
  | H : (_ =? _) = false |- _ => apply Z.eqb_neq in H
  end.

Lemma selected_delete (sel : gmap string bool) (k : string) :
  (∀ id b, sel !! id = Some b → b = true) →
  ∀ id b, delete k sel !! id = Some b → b = true.
Proof.
  intros Hsel id b. rewrite lookup_delete. case_decide; [done|]. apply Hsel.
Qed.

Lemma selected_insert (sel : gmap string bool) (k : string) :
  (∀ id b, sel !! id = Some b → b = true) →
  ∀ id b, <[k := true]> sel !! id = Some b → b = true.
Proof.
  intros Hsel id b. rewrite lookup_insert. case_decide; [congruence|].
  apply Hsel.
Qed.

Ltac inv_field :=
  first
    [ done
    | by left
    | by apply selected_insert
    | by apply selected_delete
    | by intros [?|?]
    | intros ? [= <-]; lia
    | intros ? [= <-]; unfold len in *; simpl in *; lia
    | intros; right; lia
    | intros; unfold len in *; simpl in *; lia
    | intros; auto; fail
    | intros Hne; exfalso; apply Hne; auto; fail ].

Lemma Fail_Inv (e : error) (m : Model) : Inv m → Inv (Fail e m).1.
Proof.
  intros [Hc Hd Hs Ha Hr Hsel Hsc Hst Hp].
  split; unfold currentListLen; simpl; try done. by intros [?|?].
Qed.

Ltac failed HI :=
  match goal with
  | H : Ok (Fail ?e ?m) = Ok _ |- _ =>
      inversion H; subst; clear H; apply (Fail_Inv e m HI)
  end.

Lemma Update_Inv (clock : string) (m : Model) (msg : Msg) (m' : Model)
    (cmd : option Cmd) :
  Inv m → Update clock m msg = Ok (m', cmd) → Inv m'.
Proof.
  intros HI H. destruct msg; unfold Update in H.
  - destruct (keyIn k ["ctrl+c"; "q"]); [by crunch|].
    unfold handleKey in H.
    destruct HI as [Hc Hd Hs Ha Hr Hsel Hsc Hst Hp].
    unfold currentListLen in Hc.
    destruct (Step m) eqn:Hstep; crunch; to_Z.
    all: try specialize (Hc _ eq_refl).
    all: split; unfold currentListLen; simpl; rewrite ?Hstep.
    all: try inv_field.
    all: intros ? [= <-]; assert (1 < len (AssignmentDefinitions m)) by auto.
    all: lia.
  - destruct err; [by failed HI|].
    destruct (len subscriptions =? 0) eqn:?; [by failed HI|].
    destruct HI as [Hc Hd Hs Ha Hr Hsel Hsc Hst Hp].
    crunch; to_Z; split; unfold currentListLen; simpl; inv_field.
  - destruct err; [by failed HI|].
    destruct (len assignments =? 0) eqn:?.
    { destruct (CurrentSubscription m); [|done]. simpl in H.
      destruct (Subscription.ShortID a); [|done]. simpl in H. by failed HI. }
    destruct HI as [Hc Hd Hs Ha Hr Hsel Hsc Hst Hp].
    crunch; to_Z; split; unfold currentListLen; simpl; inv_field.
  - destruct err; [by failed HI|].
    destruct HI as [Hc Hd Hs Ha Hr Hsel Hsc Hst Hp].
    crunch; to_Z; split; unfold currentListLen; simpl; inv_field.
  - destruct err; [by failed HI|].
    destruct HI as [Hc Hd Hs Ha Hr Hsel Hsc Hst Hp].
    crunch; to_Z; split; unfold currentListLen; simpl; inv_field.
  - destruct err; [by failed HI|].
    destruct HI as [Hc Hd Hs Ha Hr Hsel Hsc Hst Hp].
    crunch; to_Z; split; unfold currentListLen; simpl; inv_field.
  - by crunch.
Qed.

Theorem reachable_Inv (m : Model) : reachable m → Inv m.
Proof.
  induction 1 as [|clock m msg m' cmd _ IH H].
  - apply NewModel_Inv.
  - by apply (Update_Inv clock m msg m' cmd).
Qed.

(** ** Sessions and panics *)

Lemma run_reachable (events : list (string * Msg)) (m m' : Model) :
  reachable m → run m events = Ok m' → reachable m'.
Proof.
  revert m. induction events as [|[clock msg] rest IH]; intros m Hr H.
  - simpl in H. by injection H as <-.
  - simpl in H. destruct (Update clock m msg) as [[m1 cmd]|] eqn:HU; [|done].
    simpl in H. apply (IH m1); [|done].
    by apply (reachable_step clock m msg m1 cmd).
Qed.

Lemma stateAfter_reachable (events : list (string * Msg)) :
  reachable (stateAfter events).
Proof.
  unfold stateAfter. destruct (run NewModel events) as [m|] eqn:H.
  - apply (run_reachable events NewModel m); [apply reachable_init | done].
  - apply reachable_init.
Qed.

Ltac step_ok :=
  repeat first
    [ match goal with
      | |- context [CurrentSubscription ?x] =>
          destruct (CurrentSubscription_cases x) as (? & -> & _)
      | |- context [CurrentAssignment ?x] =>
          destruct (CurrentAssignment_cases x) as (? & -> & _)
      | |- context [Subscription.ShortID ?x] =>
          destruct (Subscription_ShortID_total x) as (? & ->)
      | |- context [let '(_, _) := ?p in _] => destruct p
      | |- context [if ?c then _ else _] => destruct c eqn:?
      end
    | progress simpl ].

(** X1: No event makes the wizard panic. *)
Theorem reachable_no_panic (clock : string) (m : Model) (msg : Msg) :
  reachable m → ∃ m' cmd, Update clock m msg = Ok (m', cmd).
Proof.
  intros Hr. destruct (reachable_Inv m Hr) as [Hc Hd Hs Ha Hr' Hsel _ _ _].
  unfold currentListLen in Hc.
  destruct msg as [k|l e|l e|l e|l e|l e|]; unfold Update, Fail;
    try destruct e.
  2-12: by step_ok; eexists _, _.
  destruct (keyIn k ["ctrl+c"; "q"]); [by eexists _, _|].
  unfold handleKey.
  destruct (Step m) eqn:Hstep; try specialize (Hc _ eq_refl).
  all: try by step_ok; eexists _, _.
  - (* the space key of StepSelectDefinitions *)
    destruct (index_in_range _ _ Hc) as (ref & Hidx & _).
    rewrite Hidx. by step_ok; eexists _, _.
  - (* Enter at StepConfirm *)
    destruct (isKeyEnter (keyType k)); [|by eexists _, _].
    destruct (_ || _) eqn:Hcond; [by eexists _, _|].
    rewrite !orb_false_iff in Hcond.
    destruct Hcond as [[[[_ _] _] _] Hrg%Z.ltb_ge].
    destruct Hr' as [?|Hr']; [lia|].
    destruct (index_in_range (ResourceGroups m) (SelectedResourceGroup m) Hr')
      as (rg & Hidx & _).
    step_ok. rewrite Hidx. by eexists _, _.
Qed.

(** ** Navigation *)

Lemma keyIn_cases (k : KeyMsg) (names : list string) :
  keyIn k names = true → ∃ name, name ∈ names ∧ k = mkKey (keyType k) name.
Proof.
  unfold keyIn. intros H. apply existsb_exists in H as (name & Hin & E).
  apply String.eqb_eq in E. exists name. split.
  - by apply list_elem_of_In.
  - destruct k; simpl in *; by subst.
Qed.

(** An up or down key on a state that shows a list of [n] entries with the
    cursor inside it. *)
Lemma navigation_step (clock : string) (m : Model) (k : KeyMsg) (n : Z) :
  currentListLen m = Some n →
  0 ≤ Cursor m < n →
  keyIn k ["up"; "k"; "down"; "j"] = true →
  ∃ m',
    Update clock m (keyMsg k) = Ok (m', None) ∧
    currentListLen m' = Some n ∧
    Step m' = Step m ∧
    Cursor m' =
      (if keyIn k ["up"; "k"] then Z.max 0 (Cursor m - 1)
       else Z.min (n - 1) (Cursor m + 1)).
Proof.
  intros Hn Hc Hk.
  apply keyIn_cases in Hk as (name & Hin & ->).
  unfold currentListLen in *.
  repeat (apply elem_of_cons in Hin as [->|Hin]); [..|by apply elem_of_nil in Hin].
  all: unfold Update, handleKey; simpl.
  all: destruct (Step m) eqn:Hstep; try done; injection Hn as <-.
  all: repeat match goal with
       | |- context [if ?c then _ else _] => destruct c eqn:?
       end; to_Z.
  all: eexists; split; [reflexivity|].
  all: simpl; rewrite ?Hstep; repeat split; try done; lia.
Qed.

(** C6: in every state of the wizard that shows a non-empty list, an up or
    down key leaves the cursor within [0, len(list)-1]: up moves it one
    back and down one forward, except that up at index 0 and down at the
    last index leave it where it is. *)
Theorem cursor_stays_in_list (clock : string) (m : Model) (k : KeyMsg)
    (n : Z) :
  reachable m →
  currentListLen m = Some n →
  0 < n →
  keyIn k ["up"; "k"; "down"; "j"] = true →
  0 ≤ Cursor m ≤ n - 1 ∧
  ∃ m',
    Update clock m (keyMsg k) = Ok (m', None) ∧
    currentListLen m' = Some n ∧
    0 ≤ Cursor m' ≤ n - 1 ∧
    (keyIn k ["up"; "k"] = true →
     (Cursor m = 0 → Cursor m' = 0) ∧
     (0 < Cursor m → Cursor m' = Cursor m - 1)) ∧
    (keyIn k ["up"; "k"] = false →
     (Cursor m = n - 1 → Cursor m' = n - 1) ∧
     (Cursor m < n - 1 → Cursor m' = Cursor m + 1)).
Proof.
  intros Hr Hn Hpos Hk.
  pose proof (inv_cursor m (reachable_Inv m Hr) n Hn) as Hc.
  split; [lia|].
  destruct (navigation_step clock m k n Hn Hc Hk) as (m' & HU & Hn' & _ & HC).
  exists m'. split; [done|]. split; [done|].
  destruct (keyIn k ["up"; "k"]); (split; [lia|]); split; intros; try done; lia.
Qed.

(** ** Selecting definitions *)

Lemma Model_eta (m : Model) :
  m = mkModel (Step m) (Status m) (Err m) (Subscriptions m) (Assignments m)
        (AssignmentDefinitions m) (ResourceGroups m) (SelectedDefinitionIDs m)
        (Cursor m) (SelectedSubscription m) (SelectedAssignment m)
        (SelectedResourceGroup m) (PartialExemption m) (TicketInput m)
        (UserInput m) (ExpirationInput m) (Ticket m) (RequestUser m)
        (ExpirationDate m) (CreateOutput m).
Proof. by destruct m. Qed.

(** The space key in [StepSelectDefinitions], with the cursor on a
    definition: the reference id under the cursor leaves the selection if it
    was selected and joins it otherwise. *)
Lemma toggle_step (clock : string) (m : Model) :
  Step m = StepSelectDefinitions →
  0 ≤ Cursor m < len (AssignmentDefinitions m) →
  ∃ ref,
    AssignmentDefinitions m !! Z.to_nat (Cursor m) = Some ref ∧
    Update clock m (keyMsg spaceKey) =
      Ok (setSelectedDefinitionIDs
            (if default false (SelectedDefinitionIDs m
                               !! PolicyDefinitionRef.ReferenceID ref)
             then delete (PolicyDefinitionRef.ReferenceID ref)
                    (SelectedDefinitionIDs m)
             else <[PolicyDefinitionRef.ReferenceID ref := true]>
                    (SelectedDefinitionIDs m)) m, None).
Proof.
  intros Hstep Hc.
  destruct (index_in_range _ _ Hc) as (ref & Hidx & Hlook).
  exists ref. split; [done|].
  unfold Update, handleKey. simpl. rewrite Hstep.
  destruct (Z.eqb_spec (len (AssignmentDefinitions m)) 0) as [?|_]; [lia|].
  rewrite Hidx. simpl. by destruct (default false _).
Qed.

(** C8: in [StepSelectDefinitions] of the wizard, pressing space twice with
    the cursor on the same definition gives back the selection there was
    before the first press (and the first press does change it). *)
Theorem toggle_twice (clock1 clock2 : string) (m : Model) :
  reachable m →
  Step m = StepSelectDefinitions →
  AssignmentDefinitions m ≠ [] ∧
  ∃ m1 m2,
    Update clock1 m (keyMsg spaceKey) = Ok (m1, None) ∧
    Cursor m1 = Cursor m ∧
    SelectedDefinitionIDs m1 ≠ SelectedDefinitionIDs m ∧
    Update clock2 m1 (keyMsg spaceKey) = Ok (m2, None) ∧
    SelectedDefinitionIDs m2 = SelectedDefinitionIDs m ∧
    m2 = m.
Proof.
  intros Hr Hstep.
  pose proof (reachable_Inv m Hr) as HI.
  assert (0 ≤ Cursor m < len (AssignmentDefinitions m)) as Hc.
  { apply (inv_cursor m HI). unfold currentListLen. by rewrite Hstep. }
  split.
  { intros E. rewrite E in Hc. unfold len in Hc. simpl in Hc. lia. }
  destruct (toggle_step clock1 m Hstep Hc) as (ref & Hlook & HU1).
  set (id := PolicyDefinitionRef.ReferenceID ref) in *.
  set (m1 := setSelectedDefinitionIDs _ m) in HU1.
  destruct (toggle_step clock2 m1 Hstep Hc) as (ref' & Hlook' & HU2).
  simpl in Hlook'. rewrite Hlook in Hlook'. injection Hlook' as <-.
  fold id in HU2.
  exists m1. eexists. split; [exact HU1|]. split; [done|].
  assert (SelectedDefinitionIDs m !! id = Some true
          ∨ SelectedDefinitionIDs m !! id = None) as Hid.
  { destruct (SelectedDefinitionIDs m !! id) as [b|] eqn:E; [|by right].
    left. f_equal. by apply (inv_selected m HI id). }
  split; [|split; [exact HU2|]].
  - subst m1. simpl. destruct Hid as [E|E]; rewrite E; simpl; intros Heq.
    + rewrite <- Heq in E. by rewrite lookup_delete_eq in E.
    + rewrite <- Heq in E. by rewrite lookup_insert_eq in E.
  - assert (SelectedDefinitionIDs
              (setSelectedDefinitionIDs
                 (if default false (SelectedDefinitionIDs m1 !! id)
                  then delete id (SelectedDefinitionIDs m1)
                  else <[id := true]> (SelectedDefinitionIDs m1)) m1)
            = SelectedDefinitionIDs m) as Hsel.
    { subst m1. simpl. destruct Hid as [E|E]; rewrite E; simpl.
      - rewrite lookup_delete_eq. simpl. rewrite insert_delete_eq.
        by apply insert_id.
      - rewrite lookup_insert_eq. simpl. by apply delete_insert_id. }
    split; [done|].
    subst m1. unfold setSelectedDefinitionIDs in *. simpl in *.
    rewrite Hsel. symmetry. apply Model_eta.
Qed.

(** ** Validation *)

(** C4: at [StepExpirationDate], Enter on an input whose trimmed text is
    "2024-02-30" or empty keeps the step, sets a status message and stores
    nothing; Enter on an input whose trimmed text is "2024-06-15" stores
    that text as the expiration date and moves to [StepConfirm]. *)
Theorem expiration_date_entered (clock : string) (m : Model) :
  Step m = StepExpirationDate →
  let value :=
    TrimSpace (Value (inputUpdate (ExpirationInput m) enterKey).1) in
  (value = "2024-02-30" ∨ value = "" →
   ∃ m' cmd,
     Update clock m (keyMsg enterKey) = Ok (m', cmd) ∧
     Step m' = StepExpirationDate ∧
     Status m' ≠ "" ∧
     Status m' =
       (if (value =? "")%string then "Expiration date is required."
        else "Invalid date format. Please use YYYY-MM-DD.") ∧
     ExpirationDate m' = ExpirationDate m ∧
     Err m' = Err m) ∧
  (value = "2024-06-15" →
   ∃ m' cmd,
     Update clock m (keyMsg enterKey) = Ok (m', cmd) ∧
     Step m' = StepConfirm ∧
     ExpirationDate m' = "2024-06-15" ∧
     Err m' = Err m).
Proof.
  intros Hstep value. subst value.
  unfold Update, handleKey. simpl. rewrite Hstep.
  destruct (inputUpdate (ExpirationInput m) enterKey) as [input c]. simpl.
  split.
  - intros [E|E]; rewrite E; simpl; eexists _, _;
      (split; [reflexivity|]); simpl; by rewrite ?Hstep.
  - intros E; rewrite E; simpl; eexists _, _;
      (split; [reflexivity|]); simpl; by rewrite ?Hstep.
Qed.

(** C5: in a state of the wizard, Enter with a blank ticket at
    [StepTicket], a blank requester at [StepUsers], nothing selected at
    [StepSelectDefinitions] or a selection missing at [StepConfirm] keeps
    the step, sets a non-empty status message, leaves the error value as it
    was, schedules no backend operation and does not enter [StepError]. *)
Theorem rejected_enter_is_local (clock : string) (m : Model) :
  reachable m →
  rejected m →
  ∃ m' cmd,
    Update clock m (keyMsg enterKey) = Ok (m', cmd) ∧
    Step m' = Step m ∧
    Status m' = rejectedStatus (Step m) ∧
    Status m' ≠ "" ∧
    Err m' = Err m ∧
    Step m' ≠ StepError ∧
    operations cmd = [].
Proof.
  intros Hr Hrej. pose proof (reachable_Inv m Hr) as HI.
  unfold Update, handleKey. simpl.
  destruct Hrej as [[Hstep E]|[[Hstep E]|[[Hstep E]|[Hstep E]]]]; rewrite Hstep.
  - destruct (inputUpdate (TicketInput m) enterKey) as [input c].
    simpl in *. rewrite E. simpl. eexists _, _. split; [reflexivity|].
    simpl. rewrite Hstep. by destruct c.
  - destruct (inputUpdate (UserInput m) enterKey) as [input c].
    simpl in *. rewrite E. simpl. eexists _, _. split; [reflexivity|].
    simpl. rewrite Hstep. by destruct c.
  - pose proof (inv_definitions m HI (or_intror Hstep)) as Hd.
    destruct (Z.eqb_spec (len (AssignmentDefinitions m)) 0) as [?|_]; [lia|].
    rewrite E. simpl. eexists _, _. split; [reflexivity|].
    simpl. by rewrite Hstep.
  - assert ((SelectedAssignment m <? 0) || (Ticket m =? "")%string
            || (RequestUser m =? "")%string || (SelectedSubscription m <? 0)
            || (SelectedResourceGroup m <? 0) = true) as ->.
    { rewrite !orb_true_iff, !Z.ltb_lt, !String.eqb_eq. tauto. }
    eexists _, _. split; [reflexivity|]. simpl. by rewrite Hstep.
Qed.

(** ** Scheduling *)

(** C7: a transition schedules at most one backend operation; an operation
    it schedules is the one the step it ends in waits for; and a transition
    that moves from another step into [StepLoadingAssignments],
    [StepLoadingAssignmentDefinitions], [StepLoadingResourceGroups] or
    [StepCreating] schedules exactly the operation of that step, on the
    selections of the model. *)
Theorem one_operation_per_transition (clock : string) (m : Model) (msg : Msg)
    (m' : Model) (cmd : option Cmd) :
  Update clock m msg = Ok (m', cmd) →
  (length (operations cmd) ≤ 1)%nat ∧
  (∀ op, op ∈ operations cmd → stepOperation (Step m') = Some op) ∧
  (Step m' ≠ Step m →
   ∀ op, stepOperation (Step m') = Some op →
         operations cmd = [op] ∧ stepCommand m' = Ok cmd).
Proof.
  intros H. unfold Update, handleKey, Fail in H.
  destruct msg as [k|l e|l e|l e|l e|l e|]; try destruct e;
    [destruct (Step m) eqn:Hstep|..]; crunch.
  all: repeat match goal with o : option inputCmd |- _ => destruct o end.
  all: unfold stepCommand, CurrentSubscription, CurrentAssignment in *.
  all: simpl in *; rewrite ?Hstep; simpl.
  all: split; [lia|split].
  all: first
    [ by intros op ?%elem_of_nil
    | by intros op ->%list_elem_of_singleton
    | done
    | intros _ op [= <-]; split; [done|];
      repeat match goal with H : _ = Ok _ |- _ => rewrite H; clear H end;
      done ].
Qed.

(** ** More invariants *)

Lemma NewModel_FlowInv : FlowInv NewModel.
Proof.
  split; simpl; try done.
  - intros id [b Hb]. by rewrite lookup_empty in Hb.
  - by left.
Qed.

Lemma Fail_FlowInv (e : error) (m : Model) : FlowInv m → FlowInv (Fail e m).1.
Proof. intros [Hk He Hr Hg Ht Hu]. split; simpl; done. Qed.

Ltac failed_flow HF :=
  match goal with
  | H : Ok (Fail ?e ?m) = Ok _ |- _ =>
      inversion H; subst; clear H; apply (Fail_FlowInv e m HF)
  end.

Lemma index_elem {A} (l : list A) (i : Z) (x : A) : index l i = Ok x → x ∈ l.
Proof.
  unfold index. destruct (i <? 0); [done|].
  destruct (l !! Z.to_nat i) as [y|] eqn:E; [|done].
  intros [= <-]. by apply list_elem_of_lookup_2 in E.
Qed.

Ltac to_string :=
  repeat match goal with
  | H : (_ =? _)%string = true |- _ => apply String.eqb_eq in H
  | H : (_ =? _)%string = false |- _ => apply String.eqb_neq in H
  | H : negb _ = false |- _ => apply negb_false_iff in H
  | H : negb _ = true |- _ => apply negb_true_iff in H
  end.

Lemma Update_FlowInv (clock : string) (m : Model) (msg : Msg) (m' : Model)
    (cmd : option Cmd) :
  Inv m → FlowInv m → Update clock m msg = Ok (m', cmd) → FlowInv m'.
Proof.
  intros HI HF H. destruct msg as [k|l e|l e|l e|l e|l e|]; unfold Update in H.
  - destruct (keyIn k ["ctrl+c"; "q"]); [by crunch|].
    unfold handleKey in H.
    destruct HI as [Hc _ _ _ _ _ _ _ _].
    destruct HF as [Hk He Hr Hg Ht Hu].
    unfold currentListLen in Hc.
    destruct (Step m) eqn:Hstep; crunch; to_Z.
    all: try specialize (Hc _ eq_refl).
    all: split; simpl; rewrite ?Hstep.
    all: try done.
    all: to_string.
    all: try (intros; auto; fail).
    + intros id [b Hb]. rewrite lookup_delete in Hb.
      case_decide; [done|]. apply Hk. by exists b.
    + intros id [b Hb]. rewrite lookup_insert in Hb. case_decide.
      * exists a. split; [by apply (index_elem _ (Cursor m))|done].
      * apply Hk. by exists b.
  - destruct e; [by failed_flow HF|].
    destruct (len l =? 0) eqn:?; [by failed_flow HF|].
    destruct HF as [Hk He Hr Hg Ht Hu].
    crunch; split; simpl; done.
  - destruct e; [by failed_flow HF|].
    destruct (len l =? 0) eqn:?.
    { destruct (CurrentSubscription m); [|done]. simpl in H.
      destruct (Subscription.ShortID a); [|done]. simpl in H.
      by failed_flow HF. }
    destruct HF as [Hk He Hr Hg Ht Hu].
    crunch; split; simpl; try done.
    intros id [b Hb]. by rewrite lookup_empty in Hb.
  - destruct e; [by failed_flow HF|].
    destruct HF as [Hk He Hr Hg Ht Hu].
    crunch; split; simpl; try done.
    all: intros id [b Hb]; by rewrite lookup_empty in Hb.
  - destruct e; [by failed_flow HF|].
    destruct HF as [Hk He Hr Hg Ht Hu].
    crunch; split; simpl; done.
  - destruct e; [by failed_flow HF|].
    destruct HF as [Hk He Hr Hg Ht Hu].
    crunch; split; simpl; done.
  - by crunch.
Qed.

Lemma reachable_FlowInv (m : Model) : reachable m → FlowInv m.
Proof.
  induction 1 as [|clock m msg m' cmd Hr IH H].
  - apply NewModel_FlowInv.
  - apply (Update_FlowInv clock m msg m' cmd); [|done..].
    by apply reachable_Inv.
Qed.

(** ** More on the states of the wizard *)

(** X2: In every state of the wizard each of the three selection fields is -1
    (nothing selected) or an index into its list. *)
Theorem selections_unset_or_valid (m : Model) :
  reachable m →
  unsetOrIndex (SelectedSubscription m) (len (Subscriptions m)) ∧
  unsetOrIndex (SelectedAssignment m) (len (Assignments m)) ∧
  unsetOrIndex (SelectedResourceGroup m) (len (ResourceGroups m)).
Proof.
  intros Hr. destruct (reachable_Inv m Hr) as [_ _ Hs Ha Hg _ _ _ _]. done.
Qed.

(** X3: In every state of the wizard the map of selected definitions holds only
    [true] values, each of its keys is the reference id of a definition of
    the loaded list, and it is empty unless [PartialExemption] is set. *)
Theorem selected_ids_are_definitions (m : Model) :
  reachable m →
  (∀ id b, SelectedDefinitionIDs m !! id = Some b →
     b = true ∧
     ∃ ref, ref ∈ AssignmentDefinitions m ∧
            PolicyDefinitionRef.ReferenceID ref = id) ∧
  (PartialExemption m = false → SelectedDefinitionIDs m = ∅).
Proof.
  intros Hr. pose proof (reachable_Inv m Hr) as HI.
  pose proof (reachable_FlowInv m Hr) as HF. split.
  - intros id b Hb. split; [by apply (inv_selected m HI id)|].
    apply (flow_selected m HF). by exists b.
  - intros Hp. destruct (decide (SelectedDefinitionIDs m = ∅)) as [|Hne];
      [done|].
    apply (inv_partial m HI) in Hne. congruence.
Qed.

(** X4: In the error step there is an error to show. *)
Theorem error_step_has_error (m : Model) :
  reachable m → Step m = StepError → ∃ e, Err m = Some e.
Proof.
  intros Hr Hstep. pose proof (flow_error m (reachable_FlowInv m Hr) Hstep).
  destruct (Err m) as [e|]; [by exists e | done].
Qed.

(** X5: At the confirmation the ticket and the requester are not empty and the
    selected resource group is an entry of the list: what can still be
    missing there is the subscription or the assignment. *)
Theorem confirm_has_details (m : Model) :
  reachable m →
  Step m = StepConfirm →
  Ticket m ≠ "" ∧ RequestUser m ≠ "" ∧
  ∃ rg, index (ResourceGroups m) (SelectedResourceGroup m) = Ok rg.
Proof.
  intros Hr Hstep. destruct (reachable_FlowInv m Hr) as [_ _ _ Hg Ht Hu].
  rewrite Hstep in *. split; [by apply Ht|]. split; [by apply Hu|].
  destruct (index_in_range _ _ (Hg eq_refl)) as (rg & Hrg & _). by exists rg.
Qed.

(** ** What keys do and do not do *)

(** X8: A key never changes the loaded lists, the error or the output of the
    create, and never leads into the error step or the final step. *)
Theorem keys_keep_loaded_data (clock : string) (m : Model) (k : KeyMsg)
    (m' : Model) (cmd : option Cmd) :
  Update clock m (keyMsg k) = Ok (m', cmd) →
  Subscriptions m' = Subscriptions m ∧
  Assignments m' = Assignments m ∧
  AssignmentDefinitions m' = AssignmentDefinitions m ∧
  ResourceGroups m' = ResourceGroups m ∧
  Err m' = Err m ∧
  CreateOutput m' = CreateOutput m ∧
  (Step m' = StepError → Step m = StepError) ∧
  (Step m' = StepDone → Step m = StepDone).
Proof.
  intros H. unfold Update, handleKey in H.
  destruct (Step m) eqn:Hstep; crunch; simpl; rewrite ?Hstep; done.
Qed.

(** X9: A key never takes the wizard back: the step it leaves the wizard in is
    the step it was in or a later one of the sequence. *)
Theorem keys_move_forward (clock : string) (m : Model) (k : KeyMsg)
    (m' : Model) (cmd : option Cmd) :
  Update clock m (keyMsg k) = Ok (m', cmd) →
  stepIndex (Step m) ≤ stepIndex (Step m').
Proof.
  intros H. unfold Update, handleKey in H.
  destruct (Step m) eqn:Hstep; crunch; simpl; rewrite ?Hstep; simpl; lia.
Qed.

(** X10: In the steps that wait for the backend and in the two final steps a key
    changes nothing, and the only command a key can give there is
    [tea.Quit]. *)
Theorem waiting_steps_ignore_keys (clock : string) (m : Model) (k : KeyMsg) :
  currentListLen m = None →
  detailStep (Step m) = false →
  ∃ cmd, Update clock m (keyMsg k) = Ok (m, cmd) ∧
         (cmd = None ∨ cmd = Some Quit ∧ keyIn k ["ctrl+c"; "q"] = true).
Proof.
  unfold currentListLen. intros Hl Hd. unfold Update, handleKey.
  destruct (keyIn k ["ctrl+c"; "q"]).
  - exists (Some Quit). split; [done|]. by right.
  - exists None. split; [|by left]. by destruct (Step m).
Qed.

(** ** Enter on a list *)

(** X11: Enter on a list of the wizard takes the entry under the cursor: on the
    subscriptions it records the cursor as the selection and fetches the
    assignments of that subscription, on the assignments it records it and
    fetches the definitions of that assignment, and on the resource groups it
    records it and asks for the ticket. *)
Theorem enter_takes_highlighted (clock : string) (m : Model) :
  reachable m →
  (Step m = StepSelectSubscription →
   ∃ sub m',
     Subscriptions m !! Z.to_nat (Cursor m) = Some sub ∧
     Update clock m (keyMsg enterKey)
       = Ok (m', Some (fetchAssignmentsCmd sub)) ∧
     SelectedSubscription m' = Cursor m ∧
     Step m' = StepLoadingAssignments) ∧
  (Step m = StepSelectAssignment →
   ∃ assign m',
     Assignments m !! Z.to_nat (Cursor m) = Some assign ∧
     Update clock m (keyMsg enterKey)
       = Ok (m', Some (fetchAssignmentDefinitionsCmd assign)) ∧
     SelectedAssignment m' = Cursor m ∧
     Step m' = StepLoadingAssignmentDefinitions) ∧
  (Step m = StepSelectResourceGroup →
   ∃ rg m',
     ResourceGroups m !! Z.to_nat (Cursor m) = Some rg ∧
     Update clock m (keyMsg enterKey) = Ok (m', None) ∧
     SelectedResourceGroup m' = Cursor m ∧
     Step m' = StepTicket).
Proof.
  intros Hr. pose proof (inv_cursor m (reachable_Inv m Hr)) as Hc.
  unfold currentListLen in Hc.
  split; [|split]; intros Hstep; rewrite Hstep in Hc;
    specialize (Hc _ eq_refl);
    destruct (index_in_range _ _ Hc) as (x & Hidx & Hlook);
    exists x; eexists; (split; [exact Hlook|]);
    unfold Update, handleKey; simpl; rewrite Hstep.
  - destruct (Z.eqb_spec (len (Subscriptions m)) 0) as [?|_]; [lia|].
    unfold CurrentSubscription. simpl.
    destruct (Z.geb_spec (Cursor m) 0) as [_|?]; [|lia].
    destruct (Z.ltb_spec (Cursor m) (len (Subscriptions m))) as [_|?]; [|lia].
    simpl. rewrite Hidx. simpl. done.
  - destruct (Z.eqb_spec (len (Assignments m)) 0) as [?|_]; [lia|].
    unfold CurrentAssignment. simpl.
    destruct (Z.geb_spec (Cursor m) 0) as [_|?]; [|lia].
    destruct (Z.ltb_spec (Cursor m) (len (Assignments m))) as [_|?]; [|lia].
    simpl. rewrite Hidx. simpl. done.
  - destruct (Z.eqb_spec (len (ResourceGroups m)) 0) as [?|_]; [lia|].
    done.
Qed.

(** ** The create command *)

Lemma create_command_fields (clock : string) (m : Model) (msg : Msg)
    (m' : Model) (scope : string) (assignment : PolicyAssignment.t)
    (selected : gmap string bool) (ticket users expirationDate : string) :
  reachable m →
  Update clock m msg =
    Ok (m', Some (createExemptionCmd scope assignment selected ticket users
                    expirationDate)) →
  Step m = StepConfirm ∧
  Step m' = StepCreating ∧
  (∃ k, msg = keyMsg k ∧ keyType k = KeyEnter) ∧
  ticket = Ticket m ∧ ticket ≠ "" ∧
  users = RequestUser m ∧ users ≠ "" ∧
  expirationDate = ExpirationDate m ∧
  (expirationDate = "" ∨ timeParseDate expirationDate = true) ∧
  Assignments m !! Z.to_nat (SelectedAssignment m) = Some assignment ∧
  (∃ rg, ResourceGroups m !! Z.to_nat (SelectedResourceGroup m) = Some rg ∧
         ResourceGroup.ID rg = scope) ∧
  0 ≤ SelectedSubscription m < len (Subscriptions m) ∧
  selected = SelectedDefinitionIDs m ∧
  (∀ id, is_Some (selected !! id) →
         ∃ ref, ref ∈ AssignmentDefinitions m ∧
                PolicyDefinitionRef.ReferenceID ref = id).
Proof.
  intros Hr H.
  destruct (reachable_Inv m Hr) as [_ _ Hs Ha Hg _ _ _ _].
  destruct (reachable_FlowInv m Hr) as [Hk He _ _ _ _].
  remember (Some (createExemptionCmd scope assignment selected ticket users
                    expirationDate)) as cmd eqn:Hcmd.
  unfold Update, handleKey, Fail in H.
  destruct msg as [k|l e|l e|l e|l e|l e|]; try destruct e;
    [destruct (Step m) eqn:Hstep|..]; crunch; try discriminate Hcmd.
  all: repeat match goal with
       | o : option inputCmd |- _ => destruct o; try discriminate Hcmd
       end.
  injection Hcmd as <- <- <- <- <- <-. simpl.
  match goal with
  | Hc : _ || _ = false |- _ =>
      rewrite !orb_false_iff in Hc;
      destruct Hc as [[[[Hc1 Hc2] Hc3] Hc4] Hc5]
  end.
  to_Z. to_string.
  destruct (isKeyEnter (keyType k)) eqn:Hkey; [|done].
  repeat split; try done; try lia.
  - exists k. split; [done|]. by destruct (keyType k).
  - match goal with
    | Hcur : CurrentAssignment _ = Ok _ |- _ =>
        unfold CurrentAssignment in Hcur; simpl in Hcur;
        destruct Ha as [?|Ha]; [lia|];
        destruct (Z.geb_spec (SelectedAssignment m) 0) as [_|?]; [|lia];
        destruct (Z.ltb_spec (SelectedAssignment m) (len (Assignments m)))
          as [_|?]; [|lia];
        simpl in Hcur;
        destruct (index_in_range _ _ Ha) as (x & Hx & Hlook);
        rewrite Hx in Hcur; injection Hcur as <-; exact Hlook
    end.
  - match goal with
    | Hrg : index (ResourceGroups _) _ = Ok ?r |- _ =>
        simpl in Hrg; exists r; split; [|done];
        destruct Hg as [?|Hg]; [lia|];
        destruct (index_in_range _ _ Hg) as (x & Hx & Hlook);
        rewrite Hx in Hrg; injection Hrg as <-; exact Hlook
    end.
  - destruct Hs as [?|Hs]; [lia|]. lia.
Qed.

(** X6: Whatever create command the wizard hands to the runtime, it is handed
    over on Enter at the confirmation, and it carries the wizard's own
    fields: a ticket and a requester that are not empty, an expiration date
    that is empty or a calendar date, the selected assignment, as scope the
    id of the selected resource group, and as definitions reference ids of
    the loaded definitions only; a subscription has been selected. *)
Theorem create_command_is_complete (clock : string) (m : Model) (msg : Msg)
    (m' : Model) (scope : string) (assignment : PolicyAssignment.t)
    (selected : gmap string bool) (ticket users expirationDate : string) :
  reachable m →
  Update clock m msg =
    Ok (m', Some (createExemptionCmd scope assignment selected ticket users
                    expirationDate)) →
  Step m = StepConfirm ∧
  Step m' = StepCreating ∧
  (∃ k, msg = keyMsg k ∧ keyType k = KeyEnter) ∧
  ticket = Ticket m ∧ ticket ≠ "" ∧
  users = RequestUser m ∧ users ≠ "" ∧
  expirationDate = ExpirationDate m ∧
  (expirationDate = "" ∨ timeParseDate expirationDate = true) ∧
  Assignments m !! Z.to_nat (SelectedAssignment m) = Some assignment ∧
  (∃ rg, ResourceGroups m !! Z.to_nat (SelectedResourceGroup m) = Some rg ∧
         ResourceGroup.ID rg = scope) ∧
  0 ≤ SelectedSubscription m < len (Subscriptions m) ∧
  selected = SelectedDefinitionIDs m ∧
  (∀ id, is_Some (selected !! id) →
         ∃ ref, ref ∈ AssignmentDefinitions m ∧
                PolicyDefinitionRef.ReferenceID ref = id).
Proof. apply create_command_fields. Qed.

(** X7: The reference ids a create command hands to the backend are the selected
    ids, each once: the closure takes every key of the map, and the wizard
    never keeps a key with the value [false]. *)
Theorem create_passes_selected_ids (clock : string) (m : Model) (msg : Msg)
    (m' : Model) (scope : string) (assignment : PolicyAssignment.t)
    (selected : gmap string bool) (ticket users expirationDate : string)
    (refs : list string) :
  reachable m →
  Update clock m msg =
    Ok (m', Some (createExemptionCmd scope assignment selected ticket users
                    expirationDate)) →
  createExemptionRefs selected refs →
  NoDup refs ∧
  ∀ id, id ∈ refs ↔ default false (SelectedDefinitionIDs m !! id) = true.
Proof.
  intros Hr HU Hrefs.
  destruct (create_command_fields clock m msg m' scope assignment selected
              ticket users expirationDate Hr HU)
    as (_ & _ & _ & _ & _ & _ & _ & _ & _ & _ & _ & _ & -> & _).
  unfold createExemptionRefs in Hrefs. split.
  - rewrite Hrefs. apply NoDup_fst_map_to_list.
  - intros id. rewrite Hrefs. rewrite list_elem_of_fmap. split.
    + intros ([id' b] & -> & Hin). apply elem_of_map_to_list in Hin.
      simpl. rewrite Hin. simpl.
      by apply (inv_selected m (reachable_Inv m Hr) id').
    + destruct (SelectedDefinitionIDs m !! id) as [b|] eqn:E; [|done].
      simpl. intros ->. exists (id, true). split; [done|].
      by apply elem_of_map_to_list.
Qed.


(** ** Runs of the program *)

Lemma session_reachable (m : Model) (flight : list Cmd) :
  session m flight → reachable m.
Proof.
  induction 1 as [|clock m flight k m' cmd _ IH H
                  |clock m flight m' cmd _ IH H
                  |clock m before c after msg m' cmd _ IH _ H].
  - apply reachable_init.
  - by apply (reachable_step clock m (keyMsg k) m' cmd).
  - by apply (reachable_step clock m otherMsg m' cmd).
  - by apply (reachable_step clock m msg m' cmd).
Qed.

Lemma operationsInFlight_app (a b : list Cmd) :
  operationsInFlight (a ++ b)
  = (operationsInFlight a ++ operationsInFlight b)%list.
Proof. unfold operationsInFlight. by rewrite fmap_app, concat_app. Qed.

Lemma operationsInFlight_option (cmd : option Cmd) :
  operationsInFlight (option_list cmd) = operations cmd.
Proof.
  destruct cmd as [c|]; [|done]. unfold operationsInFlight. simpl.
  by rewrite app_nil_r.
Qed.

(** A key keeps the step and schedules nothing, or leaves a step that waits
    for nothing and schedules what the new step waits for. *)
Lemma key_SessionInv (clock : string) (m : Model) (k : KeyMsg) (m' : Model)
    (cmd : option Cmd) (flight : list Cmd) :
  Inv m → SessionInv m flight →
  Update clock m (keyMsg k) = Ok (m', cmd) →
  SessionInv m' (flight ++ option_list cmd).
Proof.
  intros [Hc _ _ _ _ _ _ _ _] [Hf Hs Ha Hg] H.
  unfold currentListLen in Hc.
  unfold Update, handleKey in H.
  destruct (Step m) eqn:Hstep; crunch; to_Z.
  all: repeat match goal with o : option inputCmd |- _ => destruct o end.
  all: try specialize (Hc _ eq_refl).
  all: split; rewrite ?operationsInFlight_app, ?operationsInFlight_option;
    simpl; rewrite ?Hstep; simpl; rewrite ?app_nil_r.
  all: try done.
  all: try (simpl in Hf; by rewrite Hf).
  all: intros; auto.
Qed.

Lemma single_in_flight (a b : list Operation) (x : Operation)
    (o : option Operation) :
  (a ++ x :: b)%list = option_list o → a = [] ∧ b = [] ∧ o = Some x.
Proof.
  destruct o as [y|]; simpl; intros H.
  - destruct a as [|z a]; simpl in H.
    + injection H as -> ->. done.
    + injection H as -> H. by destruct a.
  - by destruct a.
Qed.

Lemma answer_SessionInv (clock : string) (m : Model) (before after : list Cmd)
    (c : Cmd) (msg : Msg) (m' : Model) (cmd : option Cmd) :
  SessionInv m (before ++ c :: after) →
  delivers c msg →
  Update clock m msg = Ok (m', cmd) →
  SessionInv m' (before ++ after ++ option_list cmd).
Proof.
  intros [Hf Hs Ha Hg] Hd H.
  rewrite operationsInFlight_app in Hf.
  change (c :: after) with ([c] ++ after)%list in Hf.
  rewrite operationsInFlight_app in Hf.
  destruct Hd; unfold operationsInFlight at 2 in Hf; simpl in Hf.
  6: { injection H as <- <-. split; [|done..].
       rewrite !operationsInFlight_app, operationsInFlight_option. simpl.
       by rewrite app_nil_r. }
  all: apply single_in_flight in Hf as (Hb & Hafter & Hop).
  all: destruct (Step m) eqn:Hstep; try discriminate Hop.
  all: unfold Update, Fail in H; destruct err; crunch.
  all: split; rewrite ?operationsInFlight_app, ?operationsInFlight_option,
         ?Hb, ?Hafter; simpl; rewrite ?Hstep; simpl.
  all: try done.
  all: try (intros; auto; fail).
  intros _. exists a. split; [|done].
  destruct (CurrentSubscription_cases m) as (sub' & Hcur & Hsel & _).
  rewrite Hcur in Heqr. injection Heqr as ->. by apply Hsel, Hs.
Qed.

Lemma session_SessionInv (m : Model) (flight : list Cmd) :
  session m flight → SessionInv m flight.
Proof.
  induction 1 as [|clock m flight k m' cmd Hs IH H
                  |clock m flight m' cmd Hs IH H
                  |clock m before c after msg m' cmd Hs IH Hd H].
  - by split.
  - apply (key_SessionInv clock m k m' cmd flight); [|done..].
    by apply reachable_Inv, (session_reachable m flight).
  - injection H as <- <-. simpl. by rewrite app_nil_r.
  - by apply (answer_SessionInv clock m before after c msg m' cmd).
Qed.

(** X14: Throughout a run the backend operations in flight are the one operation
    the step waits for, in the steps that wait, and none in every other
    step. *)
Theorem one_operation_in_flight (m : Model) (flight : list Cmd) :
  session m flight →
  operationsInFlight flight = option_list (stepOperation (Step m)).
Proof. intros Hs. apply (session_flight m flight), session_SessionInv, Hs. Qed.

(** X15: Throughout a run, once the step of a selection is passed the selection
    is set, so that the accessors return the selected entry: neither the zero
    value nor the first entry stands in for it. *)
Theorem session_accessors_return_selection (m : Model) (flight : list Cmd) :
  session m flight →
  (pastSubscription (Step m) = true →
   ∃ sub, Subscriptions m !! Z.to_nat (SelectedSubscription m) = Some sub ∧
          CurrentSubscription m = Ok sub) ∧
  (pastAssignment (Step m) = true →
   ∃ assign, Assignments m !! Z.to_nat (SelectedAssignment m) = Some assign ∧
             CurrentAssignment m = Ok assign).
Proof.
  intros Hs. destruct (session_SessionInv m flight Hs) as [_ Hsub Ha].
  split; intros Hp.
  - specialize (Hsub Hp).
    destruct (CurrentSubscription_cases m) as (sub & Hcur & Hsel & _).
    exists sub. split; [by apply Hsel | done].
  - specialize (Ha Hp).
    destruct (CurrentAssignment_cases m) as (a & Hcur & Hsel & _).
    exists a. split; [by apply Hsel | done].
Qed.

(** X16: In a run, Enter at the confirmation always starts the create: nothing
    is missing there, the step becomes [StepCreating], and the command
    carries the id of the selected resource group, the selected assignment
    and the fields of the model. *)
Theorem session_confirm_creates (clock : string) (m : Model)
    (flight : list Cmd) :
  session m flight →
  Step m = StepConfirm →
  ∃ rg assign m',
    ResourceGroups m !! Z.to_nat (SelectedResourceGroup m) = Some rg ∧
    Assignments m !! Z.to_nat (SelectedAssignment m) = Some assign ∧
    Update clock m (keyMsg enterKey) =
      Ok (m', Some (createExemptionCmd (ResourceGroup.ID rg) assign
                      (SelectedDefinitionIDs m) (Ticket m) (RequestUser m)
                      (ExpirationDate m))) ∧
    Step m' = StepCreating.
Proof.
  intros Hs Hstep.
  destruct (session_SessionInv m flight Hs) as [_ Hsub Ha _].
  destruct (reachable_FlowInv m (session_reachable m flight Hs))
    as [_ _ _ Hg Ht Hu].
  rewrite Hstep in *.
  specialize (Hsub eq_refl). specialize (Ha eq_refl).
  specialize (Hg eq_refl). specialize (Ht eq_refl). specialize (Hu eq_refl).
  destruct (index_in_range _ _ Hg) as (rg & Hrg & Hrglook).
  destruct (index_in_range _ _ Ha) as (a & Hidx & Halook).
  exists rg, a. eexists. split; [done|]. split; [done|].
  unfold Update, handleKey. simpl. rewrite Hstep.
  assert ((SelectedAssignment m <? 0) || (Ticket m =? "")%string
          || (RequestUser m =? "")%string || (SelectedSubscription m <? 0)
          || (SelectedResourceGroup m <? 0) = false) as ->.
  { rewrite !orb_false_iff, !Z.ltb_ge, !String.eqb_neq.
    repeat split; try lia; auto. }
  unfold CurrentAssignment. simpl.
  destruct (Z.geb_spec (SelectedAssignment m) 0) as [_|?]; [|lia].
  destruct (Z.ltb_spec (SelectedAssignment m) (len (Assignments m)))
    as [_|?]; [|lia].
  simpl. rewrite Hidx. simpl. rewrite Hrg. simpl. done.
Qed.

Lemma returnsMsg_delivers (c : Cmd) (msg : Msg) :
  returnsMsg c msg = true → delivers c msg.
Proof. destruct c, msg; try done; intros _; constructor. Qed.

Lemma takeAnswered_split (flight : list Cmd) (msg : Msg) (rest : list Cmd) :
  takeAnswered flight msg = Some rest →
  ∃ before c after,
    flight = (before ++ c :: after)%list ∧
    rest = (before ++ after)%list ∧
    delivers c msg.
Proof.
  revert rest. induction flight as [|c flight IH]; intros rest H; [done|].
  simpl in H. destruct (returnsMsg c msg) eqn:Hc.
  - injection H as <-. exists [], c, flight.
    split; [done|]. split; [done|]. by apply returnsMsg_delivers.
  - destruct (takeAnswered flight msg) as [rest'|]; [|done].
    injection H as <-.
    destruct (IH rest' eq_refl) as (before & c' & after & -> & -> & Hd).
    by exists (c :: before), c', after.
Qed.

Lemma runSession_session (events : list (string * Msg)) (m : Model)
    (flight : list Cmd) (m' : Model) (flight' : list Cmd) :
  session m flight →
  runSession m flight events = Some (m', flight') →
  session m' flight'.
Proof.
  revert m flight.
  induction events as [|[clock msg] rest IH]; intros m flight Hs H.
  - simpl in H. by injection H as <- <-.
  - simpl in H.
    destruct msg as [k|l e|l e|l e|l e|l e|];
      try (destruct (takeAnswered flight _) as [fl|] eqn:Ht; [|done];
           apply takeAnswered_split in Ht
             as (before & c & after & -> & -> & Hd));
      match type of H with
      | context [Update ?c ?x ?y] =>
          destruct (Update c x y) as [[m1 cmd]|] eqn:HU; [|done]
      end;
      (eapply IH; [|exact H]).
    + by apply (session_key clock m flight k m1 cmd).
    + rewrite <- app_assoc. by eapply (session_answer clock m before c after).
    + rewrite <- app_assoc. by eapply (session_answer clock m before c after).
    + rewrite <- app_assoc. by eapply (session_answer clock m before c after).
    + rewrite <- app_assoc. by eapply (session_answer clock m before c after).
    + rewrite <- app_assoc. by eapply (session_answer clock m before c after).
    + by apply (session_other clock m flight m1 cmd).
Qed.

(** X17: In a run, from the list of resource groups on, the first entry of the
    list is the entry "Entire Subscription" whose id is the scope of the
    subscription the user selected. *)
Theorem session_entire_subscription (m : Model) (flight : list Cmd) :
  session m flight →
  pastResourceGroups (Step m) = true →
  ∃ sub,
    Subscriptions m !! Z.to_nat (SelectedSubscription m) = Some sub ∧
    ResourceGroups m !! 0%nat =
      Some (ResourceGroup.mk (Subscription.Scope sub) "Entire Subscription").
Proof.
  intros Hs. apply (session_resourceGroups m flight), session_SessionInv, Hs.
Qed.

(** ** Entering a list, and the space key *)

(** X12: Whenever a transition moves into a step that shows a list, the cursor
    is on the first entry. *)
Theorem lists_start_at_first_entry (clock : string) (m : Model) (msg : Msg)
    (m' : Model) (cmd : option Cmd) (n : Z) :
  Update clock m msg = Ok (m', cmd) →
  Step m' ≠ Step m →
  currentListLen m' = Some n →
  Cursor m' = 0.
Proof.
  intros H. unfold Update, handleKey, Fail in H. unfold currentListLen.
  destruct msg as [k|l e|l e|l e|l e|l e|]; try destruct e;
    [destruct (Step m) eqn:Hstep|..]; crunch; simpl; rewrite ?Hstep; done.
Qed.

(** X13: The space key on the list of definitions changes the selection of the
    reference id under the cursor and of no other id: the id is selected
    afterwards exactly if it was not before; the cursor and the step stay. *)
Theorem space_toggles_highlighted_only (clock : string) (m : Model) :
  reachable m →
  Step m = StepSelectDefinitions →
  ∃ ref m',
    AssignmentDefinitions m !! Z.to_nat (Cursor m) = Some ref ∧
    Update clock m (keyMsg spaceKey) = Ok (m', None) ∧
    SelectedDefinitionIDs m' !! PolicyDefinitionRef.ReferenceID ref =
      (if default false (SelectedDefinitionIDs m
                         !! PolicyDefinitionRef.ReferenceID ref)
       then None else Some true) ∧
    (∀ id, id ≠ PolicyDefinitionRef.ReferenceID ref →
           SelectedDefinitionIDs m' !! id = SelectedDefinitionIDs m !! id) ∧
    Cursor m' = Cursor m ∧
    Step m' = Step m.
Proof.
  intros Hr Hstep.
  assert (0 ≤ Cursor m < len (AssignmentDefinitions m)) as Hc.
  { apply (inv_cursor m (reachable_Inv m Hr)). unfold currentListLen.
    by rewrite Hstep. }
  destruct (toggle_step clock m Hstep Hc) as (ref & Hlook & HU).
  exists ref. eexists. split; [done|]. split; [exact HU|]. simpl.
  destruct (default false _); split; try split; try done.
  - apply lookup_delete_eq.
  - intros id Hne. by apply lookup_delete_ne.
  - apply lookup_insert_eq.
  - intros id Hne. by apply lookup_insert_ne.
Qed.

End Transitions.

(** ** The properties on a session *)

Example session_steps :
  Step (stateAfter toSelectSubscription) = StepSelectSubscription ∧
  Step (stateAfter toSelectDefinitions) = StepSelectDefinitions ∧
  Step (stateAfter toExpirationDate) = StepExpirationDate ∧
  Value (ExpirationInput (stateAfter toExpirationDate)) = "2024-06-15" ∧
  Ticket (stateAfter toExpirationDate) = "INC1" ∧
  SelectedResourceGroup (stateAfter toExpirationDate) = 1.
Proof. by vm_compute. Qed.

(** Enter on the pre-filled date "2024-06-15" is accepted. *)
Lemma expiration_date_entered_witness :
  let m := stateAfter toExpirationDate in
  Step m = StepExpirationDate ∧
  TrimSpace (Value (inputUpdate (ExpirationInput m) enterKey).1)
    = "2024-06-15" ∧
  ∃ m' cmd,
    Update "2024-06-15" m (keyMsg enterKey) = Ok (m', cmd) ∧
    Step m' = StepConfirm ∧
    ExpirationDate m' = "2024-06-15" ∧
    Err m' = Err m.
Proof.
  assert (Step (stateAfter toExpirationDate) = StepExpirationDate) as Hstep
    by (vm_compute; reflexivity).
  assert (TrimSpace (Value (inputUpdate
            (ExpirationInput (stateAfter toExpirationDate)) enterKey).1)
          = "2024-06-15") as Hvalue by (vm_compute; reflexivity).
  split; [exact Hstep|]. split; [exact Hvalue|].
  exact (proj2 (expiration_date_entered "2024-06-15"
                  (stateAfter toExpirationDate) Hstep) Hvalue).
Defined.

(** Enter on the list of definitions with nothing selected is rejected. *)
Lemma rejected_enter_is_local_witness :
  let m := stateAfter toSelectDefinitions in
  rejected m ∧
  ∃ m' cmd,
    Update "2024-06-15" m (keyMsg enterKey) = Ok (m', cmd) ∧
    Step m' = Step m ∧
    Status m' = rejectedStatus (Step m) ∧
    Status m' ≠ "" ∧
    Err m' = Err m ∧
    Step m' ≠ StepError ∧
    operations cmd = [].
Proof.
  assert (rejected (stateAfter toSelectDefinitions)) as Hrej.
  { right. right. left. split; vm_compute; reflexivity. }
  split; [exact Hrej|].
  exact (rejected_enter_is_local "2024-06-15" (stateAfter toSelectDefinitions)
           (stateAfter_reachable toSelectDefinitions) Hrej).
Defined.

(** Down on the last of the two definitions leaves the cursor on it. *)
Lemma cursor_stays_in_list_witness :
  let m := stateAfter toSelectDefinitions in
  let down := mkKey KeyOther "down" in
  currentListLen m = Some 2 ∧
  0 ≤ Cursor m ≤ 2 - 1 ∧
  ∃ m',
    Update "2024-06-15" m (keyMsg down) = Ok (m', None) ∧
    currentListLen m' = Some 2 ∧
    0 ≤ Cursor m' ≤ 2 - 1 ∧
    (keyIn down ["up"; "k"] = true →
     (Cursor m = 0 → Cursor m' = 0) ∧
     (0 < Cursor m → Cursor m' = Cursor m - 1)) ∧
    (keyIn down ["up"; "k"] = false →
     (Cursor m = 2 - 1 → Cursor m' = 2 - 1) ∧
     (Cursor m < 2 - 1 → Cursor m' = Cursor m + 1)).
Proof.
  assert (currentListLen (stateAfter toSelectDefinitions) = Some 2) as Hlen
    by (vm_compute; reflexivity).
  assert (keyIn (mkKey KeyOther "down") ["up"; "k"; "down"; "j"] = true) as Hk
    by (vm_compute; reflexivity).
  split; [exact Hlen|].
  apply (cursor_stays_in_list "2024-06-15" (stateAfter toSelectDefinitions)
           (mkKey KeyOther "down") 2
           (stateAfter_reachable toSelectDefinitions) Hlen);
    [lia | exact Hk].
Defined.

(** Enter on the subscription schedules the fetch of its assignments. *)
Lemma one_operation_per_transition_witness :
  let m := stateAfter toSelectSubscription in
  let m' := stateAfter (toSelectSubscription ++ [enter]) in
  let cmd := Some (fetchAssignmentsCmd prod) in
  Update "2024-06-15" m (keyMsg enterKey) = Ok (m', cmd) ∧
  Step m' = StepLoadingAssignments ∧
  operations cmd = [ListAssignments] ∧
  stepCommand m' = Ok cmd.
Proof.
  assert (Update "2024-06-15" (stateAfter toSelectSubscription)
            (keyMsg enterKey)
          = Ok (stateAfter (toSelectSubscription ++ [enter]),
                Some (fetchAssignmentsCmd prod))) as HU
    by (vm_compute; reflexivity).
  assert (Step (stateAfter (toSelectSubscription ++ [enter]))
          = StepLoadingAssignments) as Hstep by (vm_compute; reflexivity).
  assert (Step (stateAfter (toSelectSubscription ++ [enter]))
          ≠ Step (stateAfter toSelectSubscription)) as Hne
    by (vm_compute; discriminate).
  split; [exact HU|]. split; [exact Hstep|].
  apply (proj2 (proj2 (one_operation_per_transition "2024-06-15"
           (stateAfter toSelectSubscription) (keyMsg enterKey) _ _ HU)) Hne).
  rewrite Hstep. reflexivity.
Defined.

(** Two presses of space on the first definition. *)
Lemma toggle_twice_witness :
  let m := stateAfter toSelectDefinitions in
  Step m = StepSelectDefinitions ∧
  AssignmentDefinitions m ≠ [] ∧
  ∃ m1 m2,
    Update "2024-06-15" m (keyMsg spaceKey) = Ok (m1, None) ∧
    Cursor m1 = Cursor m ∧
    SelectedDefinitionIDs m1 ≠ SelectedDefinitionIDs m ∧
    Update "2024-06-16" m1 (keyMsg spaceKey) = Ok (m2, None) ∧
    SelectedDefinitionIDs m2 = SelectedDefinitionIDs m ∧
    m2 = m.
Proof.
  assert (Step (stateAfter toSelectDefinitions) = StepSelectDefinitions)
    as Hstep by (vm_compute; reflexivity).
  split; [exact Hstep|].
  exact (toggle_twice "2024-06-15" "2024-06-16"
           (stateAfter toSelectDefinitions)
           (stateAfter_reachable toSelectDefinitions) Hstep).
Defined.

(** One definition skips the scope question, two ask it. *)
Lemma definitions_loaded_witness :
  let m := stateAfter toSelectSubscription in
  (∃ sub m',
     CurrentSubscription m = Ok sub ∧
     Update "2024-06-15" m (assignmentDefinitionsLoadedMsg [tls] None)
       = Ok (m', Some (fetchResourceGroupsCmd sub)) ∧
     Step m' = StepLoadingResourceGroups ∧
     PartialExemption m' = false ∧
     SelectedDefinitionIDs m' = ∅ ∧
     AssignmentDefinitions m' = [tls]) ∧
  (∃ m',
     Update "2024-06-15" m (assignmentDefinitionsLoadedMsg [tls; disk] None)
       = Ok (m', None) ∧
     Step m' = StepAssignmentScope ∧
     Cursor m' = 0 ∧
     PartialExemption m' = false ∧
     SelectedDefinitionIDs m' = ∅ ∧
     AssignmentDefinitions m' = [tls; disk]).
Proof.
  split.
  - apply (proj1 (definitions_loaded "2024-06-15"
                    (stateAfter toSelectSubscription) [tls])).
    vm_compute. discriminate.
  - apply (proj2 (definitions_loaded "2024-06-15"
                    (stateAfter toSelectSubscription) [tls; disk])).
    vm_compute. discriminate.
Defined.

(** The session from the first event to the stored output of the create. *)
Example session_done :
  let m :=
    stateAfter
      (toExpirationDate ++
       [ enter; enter; loaded (exemptionCreatedMsg "{ok}" None) ]) in
  Step m = StepDone ∧
  CreateOutput m = "{ok}" ∧
  Ticket m = "INC1" ∧
  RequestUser m = "alice" ∧
  ExpirationDate m = "2024-06-15" ∧
  Err m = None.
Proof. by vm_compute. Qed.

(** ** Paths and identifiers *)

Lemma hasSlash_app (a b : string) :
  hasSlash (a +:+ b) = hasSlash a || hasSlash b.
Proof.
  induction a as [|c r IH]; [done|].
  change (hasSlash (String c (r +:+ b)) = hasSlash (String c r) || hasSlash b).
  simpl. rewrite IH. by rewrite orb_assoc.
Qed.

Lemma Split_no_slash (s : string) : hasSlash s = false → Split s "/" = [s].
Proof.
  induction s as [|c r IH]; simpl; [done|].
  intros [Hc Hr]%orb_false_iff. rewrite Hc. by rewrite (IH Hr).
Qed.

Lemma Split_segment (a b : string) :
  hasSlash a = false → Split (a +:+ "/" +:+ b) "/" = a :: Split b "/".
Proof.
  induction a as [|c r IH]; intros Ha.
  - done.
  - change (Split (String c (r +:+ "/" +:+ b)) "/" = String c r :: Split b "/").
    simpl in *. apply orb_false_iff in Ha as [Hc Hr]. rewrite Hc.
    by rewrite (IH Hr).
Qed.

(** Splitting a path at its slashes gives its segments back, after the empty
    piece in front of the first slash. *)
Lemma Split_joinPath (segments : list string) :
  Forall (λ segment, hasSlash segment = false) segments →
  Split (joinPath segments) "/" = "" :: segments.
Proof.
  induction 1 as [|segment rest Hs _ IH]; [done|].
  change (joinPath (segment :: rest))
    with ("" +:+ "/" +:+ segment +:+ joinPath rest).
  rewrite Split_segment by done. f_equal.
  destruct rest as [|next rest'].
  - simpl. rewrite string_app_nil_r. by apply Split_no_slash.
  - change (joinPath (next :: rest'))
      with ("/" +:+ next +:+ joinPath rest') in *.
    rewrite Split_segment by done.
    change ("/" +:+ next +:+ joinPath rest')
      with ("" +:+ "/" +:+ next +:+ joinPath rest') in IH.
    rewrite Split_segment in IH by done. by injection IH as ->.
Qed.

(** The last path segment ends the identifier, holds no slash and starts the
    identifier or follows a slash. *)
Lemma lastPathSegmentFrom_spec (s acc : string) :
  hasSlash acc = false →
  hasSlash (lastPathSegmentFrom acc s) = false ∧
  ∃ before,
    acc +:+ s = before +:+ lastPathSegmentFrom acc s ∧
    (before = "" ∨ ∃ front, before = front +:+ "/").
Proof.
  revert acc. induction s as [|c r IH]; intros acc Hacc; simpl.
  - split; [done|]. exists "". split; [by rewrite string_app_nil_r | by left].
  - destruct (Ascii.eqb c "/") eqn:Hc.
    + apply Ascii.eqb_eq in Hc as ->.
      destruct (IH "" eq_refl) as (Hno & before & Heq & Hb).
      split; [done|]. exists (acc +:+ "/" +:+ before). split.
      * rewrite !string_app_assoc. f_equal.
        change ("/" +:+ before +:+ lastPathSegmentFrom "" r)
          with (String "/" (before +:+ lastPathSegmentFrom "" r)).
        f_equal. exact Heq.
      * right. destruct Hb as [->|(front & ->)].
        -- exists acc. by rewrite string_app_nil_r.
        -- exists (acc +:+ "/" +:+ front). by rewrite !string_app_assoc.
    + destruct (IH (acc +:+ String c "")) as (Hno & before & Heq & Hb).
      { rewrite hasSlash_app. simpl. by rewrite Hacc, Hc. }
      split; [done|]. exists before. split; [|done].
      rewrite <- Heq. by rewrite string_app_assoc.
Qed.

(** X18: The short id of a policy assignment never panics and is the last path
    segment of the id: it ends the id, holds no slash, and is the whole id
    or what follows the last slash. *)
Theorem PolicyAssignment_ShortID_last_segment (p : PolicyAssignment.t) :
  ∃ short before,
    PolicyAssignment.ShortID p = Ok short ∧
    PolicyAssignment.ID p = before +:+ short ∧
    hasSlash short = false ∧
    (before = "" ∨ ∃ front, before = front +:+ "/").
Proof.
  destruct (lastPathSegmentFrom_spec (PolicyAssignment.ID p) "" eq_refl)
    as (Hno & before & Heq & Hb).
  exists (lastPathSegment (PolicyAssignment.ID p)), before.
  split; [|done]. unfold PolicyAssignment.ShortID.
  destruct (String.eqb_spec (PolicyAssignment.ID p) "") as [E|_].
  - by rewrite E.
  - apply Split_index_last.
Qed.

(** X19: The short id of a subscription never holds the prefix "/subscriptions/"
    it was given with: for an id that starts with it, the short id is free of
    slashes and ends the id right after a slash. *)
Theorem Subscription_ShortID_strips_prefix (s : Subscription.t) :
  HasPrefix (Subscription.ID s) "/subscriptions/" = true →
  ∃ short front,
    Subscription.ShortID s = Ok short ∧
    Subscription.ID s = front +:+ "/" +:+ short ∧
    hasSlash short = false.
Proof.
  intros Hp.
  destruct (lastPathSegmentFrom_spec (Subscription.ID s) "" eq_refl)
    as (Hno & before & Heq & Hb).
  fold (lastPathSegment (Subscription.ID s)) in *.
  destruct Hb as [->|(front & ->)].
  - exfalso. change ("" +:+ Subscription.ID s) with (Subscription.ID s) in Heq.
    change ("" +:+ lastPathSegment (Subscription.ID s))
      with (lastPathSegment (Subscription.ID s)) in Heq.
    rewrite <- Heq in Hno. unfold HasPrefix in Hp.
    destruct (Subscription.ID s) as [|c r]; [done|].
    change (String.prefix "/subscriptions/" (String c r))
      with (if ascii_dec "/" c then String.prefix "subscriptions/" r
            else false) in Hp.
    destruct (ascii_dec "/" c) as [<-|]; [|done]. done.
  - exists (lastPathSegment (Subscription.ID s)), front.
    split; [|split; [|done]].
    + unfold Subscription.ShortID. rewrite Hp. simpl. apply Split_index_last.
    + change ("" +:+ Subscription.ID s) with (Subscription.ID s) in Heq.
      etransitivity; [exact Heq | apply string_app_assoc].
Qed.

Lemma parsePolicyParts_no_name (parts : list string)
    (name subscription managementGroup : string) :
  Forall (λ part, EqualFold part "policySetDefinitions" = false ∧
                  EqualFold part "policyDefinitions" = false) parts →
  (parsePolicyParts parts name subscription managementGroup).1.1 = name.
Proof.
  intros H. revert name subscription managementGroup.
  induction H as [|part rest [H1 H2] _ IH]; intros name sub mg; [done|].
  simpl. destruct rest as [|next rest']; [done|].
  rewrite H1, H2. simpl. apply IH.
Qed.

(** X21: An id none of whose segments is "policySetDefinitions" or
    "policyDefinitions" (in any case of the letters) has no policy name:
    [parsePolicyID] returns the empty name, whatever else it finds. *)
Theorem parsePolicyID_without_definition (id : string) :
  Forall (λ part, EqualFold part "policySetDefinitions" = false ∧
                  EqualFold part "policyDefinitions" = false)
         (Split id "/") →
  (parsePolicyID id).1.1 = "".
Proof. intros H. unfold parsePolicyID. by apply parsePolicyParts_no_name. Qed.

(** X20: [parsePolicyID] reads the three shapes of a policy id: below a
    subscription it returns the name and the subscription, below a management
    group the name and the management group, and for a built-in definition
    the name alone. *)
Theorem parsePolicyID_reads_ids (kind scope name : string) :
  kind = "policySetDefinitions" ∨ kind = "policyDefinitions" →
  hasSlash scope = false →
  hasSlash name = false →
  EqualFold scope "subscriptions" = false →
  EqualFold scope "managementGroups" = false →
  parsePolicyID
    (joinPath ["subscriptions"; scope; "providers"; "Microsoft.Authorization";
               kind; name]) = (name, scope, "") ∧
  parsePolicyID
    (joinPath ["providers"; "Microsoft.Management"; "managementGroups"; scope;
               "providers"; "Microsoft.Authorization"; kind; name])
    = (name, "", scope) ∧
  parsePolicyID
    (joinPath ["providers"; "Microsoft.Authorization"; kind; name])
    = (name, "", "").
Proof.
  intros Hkind Hscope Hname Hsub Hmg.
  assert (hasSlash kind = false) as Hk by (by destruct Hkind as [->| ->]).
  unfold parsePolicyID.
  rewrite !Split_joinPath by (repeat constructor; done).
  cbn [parsePolicyParts]. rewrite Hsub, Hmg.
  generalize (EqualFold scope "policySetDefinitions").
  generalize (EqualFold scope "policyDefinitions").
  intros b1 b2.
  destruct Hkind as [->| ->]; destruct b1, b2; vm_compute; done.
Qed.

(** ** The window of a long list *)

Lemma wrapInt_small (z : Z) : - 2 ^ 63 ≤ z < 2 ^ 63 → wrapInt z = z.
Proof. intros H. unfold wrapInt. rewrite Z.mod_small; lia. Qed.

Lemma visibleRange_window (cursor total limit : Z) :
  0 ≤ cursor < total →
  total + limit ≤ maxInt →
  let '(start, end_) := visibleRange cursor total limit in
  0 ≤ start ≤ cursor ∧ cursor < end_ ≤ total ∧
  end_ - start =
    (if (limit <=? 0) || (total <=? limit) then total else limit).
Proof.
  intros Hc Hmax. unfold visibleRange, maxInt in *.
  destruct (Z.leb_spec limit 0) as [Hl|Hl]; simpl; [lia|].
  destruct (Z.leb_spec total limit) as [Ht|Ht]; simpl; [lia|].
  assert (0 ≤ limit ÷ 2 ≤ limit) as Hq.
  { rewrite Z.quot_div_nonneg by lia. split.
    - apply Z.div_pos; lia.
    - apply Z.div_le_upper_bound; lia. }
  assert (0 < limit → 0 < limit - limit ÷ 2) as Hhalf.
  { intros _. rewrite Z.quot_div_nonneg by lia.
    assert (limit / 2 < limit) by (apply Z.div_lt; lia). lia. }
  rewrite (wrapInt_small (cursor - limit ÷ 2)) by lia.
  destruct (Z.ltb_spec (cursor - limit ÷ 2) 0) as [Hs|Hs].
  - rewrite (wrapInt_small (0 + limit)) by lia.
    destruct (Z.gtb_spec (0 + limit) total) as [?|_]; [lia|]. lia.
  - rewrite (wrapInt_small (cursor - limit ÷ 2 + limit)) by lia.
    destruct (Z.gtb_spec (cursor - limit ÷ 2 + limit) total) as [Hg|Hg].
    + rewrite (wrapInt_small (total - limit)) by lia. lia.
    + lia.
Qed.

(** X22: The window [visibleRange] cuts out of a list with the cursor on one of
    its entries lies inside the list, holds the cursor, and shows the whole
    list if it has no more than [limit] entries (or [limit] is not positive)
    and exactly [limit] entries otherwise. *)
Theorem visibleRange_holds_cursor (cursor total limit : Z) :
  0 ≤ cursor < total →
  total + limit ≤ maxInt →
  ∃ start end_,
    visibleRange cursor total limit = (start, end_) ∧
    0 ≤ start ≤ cursor ∧ cursor < end_ ≤ total ∧
    end_ - start = (if limit <=? 0 then total else Z.min total limit).
Proof.
  intros Hc Hmax. pose proof (visibleRange_window cursor total limit Hc Hmax).
  destruct (visibleRange cursor total limit) as [start end_].
  exists start, end_. split; [done|].
  destruct (Z.leb_spec limit 0); simpl in *; [lia|].
  destruct (Z.leb_spec total limit); simpl in *; lia.
Qed.

Example visibleRange_examples :
  visibleRange 0 40 15 = (0, 15) ∧
  visibleRange 10 40 15 = (3, 18) ∧
  visibleRange 39 40 15 = (25, 40) ∧
  visibleRange 3 7 15 = (0, 7) ∧
  visibleRange 0 0 15 = (0, 0).
Proof. by vm_compute. Qed.

Example parsePolicyID_examples :
  parsePolicyID
    "/subscriptions/a/providers/Microsoft.Authorization/policySetDefinitions/base"
    = ("base", "a", "") ∧
  parsePolicyID
    "/providers/Microsoft.Authorization/POLICYDEFINITIONS/tls"
    = ("tls", "", "") ∧
  parsePolicyID "/subscriptions/a/policyDefinitions" = ("", "a", "") ∧
  parsePolicyID "" = ("", "", "").
Proof. by vm_compute. Qed.

(** ** The screen *)

Lemma PolicyAssignment_ShortID_total (p : PolicyAssignment.t) :
  ∃ short, PolicyAssignment.ShortID p = Ok short.
Proof.
  unfold PolicyAssignment.ShortID.
  destruct (PolicyAssignment.ID p =? "")%string; [by eexists|].
  rewrite Split_index_last. by eexists.
Qed.

Section Screens.
Context `{TI : TextInput} `{SC : !Screen}.

Lemma forRange_ok (count : nat) (i : Z) (body : Z → Res string) :
  (∀ j, i ≤ j < i + Z.of_nat count → ∃ line, body j = Ok line) →
  ∃ lines, forRange count i body = Ok lines.
Proof.
  revert i. induction count as [|n IH]; intros i Hbody; simpl.
  - by eexists.
  - destruct (Hbody i) as (line & ->); [lia|]. simpl.
    destruct (IH (i + 1)) as (rest & ->).
    { intros j Hj. apply Hbody. lia. }
    simpl. by eexists.
Qed.

Lemma forLoop_ok (start end_ : Z) (body : Z → Res string) :
  (∀ j, start ≤ j < end_ → ∃ line, body j = Ok line) →
  ∃ lines, forLoop start end_ body = Ok lines.
Proof.
  intros Hbody. apply forRange_ok. intros j Hj. apply Hbody. lia.
Qed.

Ltac accessor_ok m :=
  repeat match goal with
  | |- context [CurrentSubscription m] =>
      destruct (CurrentSubscription_cases m) as (? & -> & _); simpl
  | |- context [CurrentAssignment m] =>
      destruct (CurrentAssignment_cases m) as (? & -> & _); simpl
  | |- context [Subscription.ShortID ?x] =>
      destruct (Subscription_ShortID_total x) as (? & ->); simpl
  | |- context [PolicyAssignment.ShortID ?x] =>
      destruct (PolicyAssignment_ShortID_total x) as (? & ->); simpl
  end.

Ltac list_ok m Hwin :=
  accessor_ok m;
  match goal with
  | |- context [visibleRange ?c ?t ?l] =>
      pose proof (visibleRange_window c t l) as Hwin;
      destruct (visibleRange c t l) as [? ?]
  end;
  match goal with
  | |- context [forLoop ?s ?e ?body] =>
      destruct (forLoop_ok s e body) as (? & ->);
      [ intros j Hj;
        match goal with
        | |- context [index ?l j] =>
            destruct (index_in_range l j) as (? & -> & _); [lia|]
        end; simpl; accessor_ok m; by eexists
      | simpl; by eexists ]
  end.

(** X23: [View] never panics in a state of the wizard, and its text ends with the
    status message when there is one. *)
Theorem View_never_panics (m : Model) :
  reachable m →
  listsFit m →
  ∃ text,
    View m = Ok text ∧
    (Status m ≠ "" → ∃ above, text = above +:+ nl +:+ Status m +:+ nl).
Proof.
  intros Hr (Hf1 & Hf2 & Hf3 & Hf4).
  pose proof (inv_cursor m (reachable_Inv m Hr)) as Hc.
  pose proof (flow_resourceGroup m (reachable_FlowInv m Hr)) as Hg.
  unfold currentListLen in Hc. unfold View.
  match goal with
  | |- context [bindRes ?r _] => assert (∃ body, r = Ok body) as (body & ->)
  end.
  { destruct (Step m) eqn:Hstep; try (by eexists);
      try specialize (Hc _ eq_refl).
    - list_ok m Hwin; specialize (Hwin Hc Hf1); lia.
    - list_ok m Hwin; specialize (Hwin Hc Hf2); lia.
    - list_ok m Hwin; specialize (Hwin Hc Hf3); lia.
    - list_ok m Hwin; specialize (Hwin Hc Hf4); lia.
    - accessor_ok m. by eexists.
    - accessor_ok m. by eexists.
    - accessor_ok m.
      destruct (index_in_range _ _ (Hg eq_refl)) as (rg & -> & _). simpl.
      accessor_ok m. by eexists. }
  simpl. eexists. split; [done|]. intros Hs.
  destruct (String.eqb_spec (Status m) "") as [?|_]; [done|]. simpl.
  exists ("Azure Policy Exemption CLI" +:+ nl +:+ nl +:+ body).
  by rewrite !string_app_assoc.
Qed.

(** X24: At the confirmation [View] reads the selected resource group before
    anything is checked: with a selection that is no index of the list (such
    as -1) it panics, where Enter would answer "Missing information". *)
Theorem View_confirm_needs_resource_group (m : Model) :
  Step m = StepConfirm →
  SelectedResourceGroup m < 0 ∨
  len (ResourceGroups m) ≤ SelectedResourceGroup m →
  View m = Panic.
Proof.
  intros Hstep Hout. unfold View. rewrite Hstep. accessor_ok m.
  by rewrite (index_out_of_range _ _ Hout).
Qed.

End Screens.

(** ** More properties on a session *)

Lemma toConfirm_session : session (stateAfter toConfirm) [].
Proof.
  apply (runSession_session toConfirm NewModel (option_list (Init NewModel))).
  - apply session_start.
  - vm_compute. reflexivity.
Qed.

Lemma reachable_no_panic_witness :
  ∃ m' cmd,
    Update "2024-06-15" (stateAfter toConfirm)
           (resourceGroupsLoadedMsg [] None) = Ok (m', cmd).
Proof.
  exact (reachable_no_panic "2024-06-15" (stateAfter toConfirm)
           (resourceGroupsLoadedMsg [] None) (stateAfter_reachable toConfirm)).
Defined.

Lemma selections_unset_or_valid_witness :
  let m := stateAfter toSelectDefinitions in
  unsetOrIndex (SelectedSubscription m) (len (Subscriptions m)) ∧
  unsetOrIndex (SelectedAssignment m) (len (Assignments m)) ∧
  unsetOrIndex (SelectedResourceGroup m) (len (ResourceGroups m)).
Proof.
  exact (selections_unset_or_valid (stateAfter toSelectDefinitions)
           (stateAfter_reachable toSelectDefinitions)).
Defined.

Lemma selected_ids_are_definitions_witness :
  let m := stateAfter toConfirm in
  SelectedDefinitionIDs m !! "tls" = Some true ∧
  (∀ id b, SelectedDefinitionIDs m !! id = Some b →
     b = true ∧
     ∃ ref, ref ∈ AssignmentDefinitions m ∧
            PolicyDefinitionRef.ReferenceID ref = id) ∧
  (PartialExemption m = false → SelectedDefinitionIDs m = ∅).
Proof.
  split; [vm_compute; reflexivity|].
  exact (selected_ids_are_definitions (stateAfter toConfirm)
           (stateAfter_reachable toConfirm)).
Defined.

Lemma error_step_has_error_witness :
  let m := stateAfter toError in
  Step m = StepError ∧ ∃ e, Err m = Some e.
Proof.
  assert (Step (stateAfter toError) = StepError) as Hstep
    by (vm_compute; reflexivity).
  split; [exact Hstep|].
  exact (error_step_has_error (stateAfter toError)
           (stateAfter_reachable toError) Hstep).
Defined.

Lemma confirm_has_details_witness :
  let m := stateAfter toConfirm in
  Step m = StepConfirm ∧
  Ticket m ≠ "" ∧ RequestUser m ≠ "" ∧
  ∃ rg, index (ResourceGroups m) (SelectedResourceGroup m) = Ok rg.
Proof.
  assert (Step (stateAfter toConfirm) = StepConfirm) as Hstep
    by (vm_compute; reflexivity).
  split; [exact Hstep|].
  exact (confirm_has_details (stateAfter toConfirm)
           (stateAfter_reachable toConfirm) Hstep).
Defined.

Lemma keys_keep_loaded_data_witness :
  let m := stateAfter toSelectDefinitions in
  let m' := stateAfter (toSelectDefinitions ++ [key " "]) in
  Update "2024-06-15" m (keyMsg spaceKey) = Ok (m', None) ∧
  Subscriptions m' = Subscriptions m ∧
  Assignments m' = Assignments m ∧
  AssignmentDefinitions m' = AssignmentDefinitions m ∧
  ResourceGroups m' = ResourceGroups m ∧
  Err m' = Err m ∧
  CreateOutput m' = CreateOutput m ∧
  (Step m' = StepError → Step m = StepError) ∧
  (Step m' = StepDone → Step m = StepDone).
Proof.
  assert (Update "2024-06-15" (stateAfter toSelectDefinitions)
            (keyMsg spaceKey)
          = Ok (stateAfter (toSelectDefinitions ++ [key " "]), None)) as HU
    by (vm_compute; reflexivity).
  split; [exact HU|].
  exact (keys_keep_loaded_data "2024-06-15" (stateAfter toSelectDefinitions)
           spaceKey _ None HU).
Defined.

Lemma keys_move_forward_witness :
  let m := stateAfter toSelectSubscription in
  let m' := stateAfter (toSelectSubscription ++ [enter]) in
  Update "2024-06-15" m (keyMsg enterKey)
    = Ok (m', Some (fetchAssignmentsCmd prod)) ∧
  stepIndex (Step m) ≤ stepIndex (Step m').
Proof.
  assert (Update "2024-06-15" (stateAfter toSelectSubscription)
            (keyMsg enterKey)
          = Ok (stateAfter (toSelectSubscription ++ [enter]),
                Some (fetchAssignmentsCmd prod))) as HU
    by (vm_compute; reflexivity).
  split; [exact HU|].
  exact (keys_move_forward "2024-06-15" (stateAfter toSelectSubscription)
           enterKey _ _ HU).
Defined.

Lemma waiting_steps_ignore_keys_witness :
  let m := stateAfter (toSelectSubscription ++ [enter]) in
  Step m = StepLoadingAssignments ∧
  ∃ cmd, Update "2024-06-15" m (keyMsg enterKey) = Ok (m, cmd) ∧
         (cmd = None ∨ cmd = Some Quit ∧ keyIn enterKey ["ctrl+c"; "q"] = true).
Proof.
  split; [vm_compute; reflexivity|].
  apply (waiting_steps_ignore_keys "2024-06-15"
           (stateAfter (toSelectSubscription ++ [enter])) enterKey);
    vm_compute; reflexivity.
Defined.

Lemma enter_takes_highlighted_witness :
  let m := stateAfter toSelectSubscription in
  Step m = StepSelectSubscription ∧
  ∃ sub m',
    Subscriptions m !! Z.to_nat (Cursor m) = Some sub ∧
    Update "2024-06-15" m (keyMsg enterKey)
      = Ok (m', Some (fetchAssignmentsCmd sub)) ∧
    SelectedSubscription m' = Cursor m ∧
    Step m' = StepLoadingAssignments.
Proof.
  assert (Step (stateAfter toSelectSubscription) = StepSelectSubscription)
    as Hstep by (vm_compute; reflexivity).
  split; [exact Hstep|].
  exact (proj1 (enter_takes_highlighted "2024-06-15"
                  (stateAfter toSelectSubscription)
                  (stateAfter_reachable toSelectSubscription)) Hstep).
Defined.

Lemma create_command_is_complete_witness :
  let m := stateAfter toConfirm in
  let m' := stateAfter (toConfirm ++ [enter]) in
  Update "2024-06-15" m (keyMsg enterKey) =
    Ok (m', Some (createExemptionCmd "/subscriptions/a/resourceGroups/shop"
                    initiative {["tls" := true]} "INC1" "alice"
                    "2024-06-15")) ∧
  Step m = StepConfirm ∧
  Step m' = StepCreating.
Proof.
  assert (Update "2024-06-15" (stateAfter toConfirm) (keyMsg enterKey) =
            Ok (stateAfter (toConfirm ++ [enter]),
                Some (createExemptionCmd "/subscriptions/a/resourceGroups/shop"
                        initiative {["tls" := true]} "INC1" "alice"
                        "2024-06-15"))) as HU
    by (vm_compute; reflexivity).
  split; [exact HU|].
  pose proof (create_command_is_complete "2024-06-15" (stateAfter toConfirm)
                (keyMsg enterKey) _ _ _ _ _ _ _
                (stateAfter_reachable toConfirm) HU) as H.
  exact (conj (proj1 H) (proj1 (proj2 H))).
Defined.

Lemma toLoadingAssignments_session :
  session (stateAfter (toSelectSubscription ++ [enter]))
          [fetchAssignmentsCmd prod].
Proof.
  apply (runSession_session (toSelectSubscription ++ [enter]) NewModel
           (option_list (Init NewModel))).
  - apply session_start.
  - vm_compute. reflexivity.
Qed.

Lemma one_operation_in_flight_witness :
  let m := stateAfter (toSelectSubscription ++ [enter]) in
  Step m = StepLoadingAssignments ∧
  operationsInFlight [fetchAssignmentsCmd prod] =
  option_list (stepOperation (Step m)).
Proof.
  split; [vm_compute; reflexivity|].
  exact (one_operation_in_flight (stateAfter (toSelectSubscription ++ [enter]))
           [fetchAssignmentsCmd prod] toLoadingAssignments_session).
Defined.

Lemma session_accessors_return_selection_witness :
  let m := stateAfter toConfirm in
  pastSubscription (Step m) = true ∧
  ∃ sub, Subscriptions m !! Z.to_nat (SelectedSubscription m) = Some sub ∧
         CurrentSubscription m = Ok sub.
Proof.
  assert (pastSubscription (Step (stateAfter toConfirm)) = true) as Hp
    by (vm_compute; reflexivity).
  split; [exact Hp|].
  exact (proj1 (session_accessors_return_selection (stateAfter toConfirm) []
                  toConfirm_session) Hp).
Defined.

Lemma session_confirm_creates_witness :
  let m := stateAfter toConfirm in
  Step m = StepConfirm ∧
  ∃ rg assign m',
    ResourceGroups m !! Z.to_nat (SelectedResourceGroup m) = Some rg ∧
    Assignments m !! Z.to_nat (SelectedAssignment m) = Some assign ∧
    Update "2024-06-15" m (keyMsg enterKey) =
      Ok (m', Some (createExemptionCmd (ResourceGroup.ID rg) assign
                      (SelectedDefinitionIDs m) (Ticket m) (RequestUser m)
                      (ExpirationDate m))) ∧
    Step m' = StepCreating.
Proof.
  assert (Step (stateAfter toConfirm) = StepConfirm) as Hstep
    by (vm_compute; reflexivity).
  split; [exact Hstep|].
  exact (session_confirm_creates "2024-06-15" (stateAfter toConfirm) []
           toConfirm_session Hstep).
Defined.

Lemma Subscription_ShortID_strips_prefix_witness :
  HasPrefix (Subscription.ID prod) "/subscriptions/" = true ∧
  ∃ short front,
    Subscription.ShortID prod = Ok short ∧
    Subscription.ID prod = front +:+ "/" +:+ short ∧
    hasSlash short = false.
Proof.
  assert (HasPrefix (Subscription.ID prod) "/subscriptions/" = true) as Hp
    by (vm_compute; reflexivity).
  split; [exact Hp|].
  exact (Subscription_ShortID_strips_prefix prod Hp).
Defined.

Lemma parsePolicyID_without_definition_witness :
  (parsePolicyID "/subscriptions/a/resourceGroups/shop").1.1 = "".
Proof.
  apply (parsePolicyID_without_definition
           "/subscriptions/a/resourceGroups/shop").
  vm_compute. repeat constructor.
Defined.

Lemma parsePolicyID_reads_ids_witness :
  parsePolicyID
    (joinPath ["subscriptions"; "a"; "providers"; "Microsoft.Authorization";
               "policySetDefinitions"; "baseline"]) = ("baseline", "a", "") ∧
  parsePolicyID
    (joinPath ["providers"; "Microsoft.Management"; "managementGroups"; "a";
               "providers"; "Microsoft.Authorization"; "policySetDefinitions";
               "baseline"])
    = ("baseline", "", "a") ∧
  parsePolicyID
    (joinPath ["providers"; "Microsoft.Authorization"; "policySetDefinitions";
               "baseline"])
    = ("baseline", "", "").
Proof.
  apply (parsePolicyID_reads_ids "policySetDefinitions" "a" "baseline");
    [by left | reflexivity..].
Defined.

Lemma visibleRange_holds_cursor_witness :
  ∃ start end_,
    visibleRange 39 40 15 = (start, end_) ∧
    0 ≤ start ≤ 39 ∧ 39 < end_ ≤ 40 ∧
    end_ - start = (if 15 <=? 0 then 40 else Z.min 40 15).
Proof.
  apply (visibleRange_holds_cursor 39 40 15); unfold maxInt; lia.
Defined.

Lemma View_never_panics_witness :
  let m := stateAfter toConfirm in
  listsFit m ∧
  ∃ text,
    View m = Ok text ∧
    (Status m ≠ "" → ∃ above, text = above +:+ nl +:+ Status m +:+ nl).
Proof.
  assert (listsFit (stateAfter toConfirm)) as Hfit.
  { unfold listsFit, maxInt. vm_compute. repeat split; discriminate. }
  split; [exact Hfit|].
  exact (View_never_panics (stateAfter toConfirm)
           (stateAfter_reachable toConfirm) Hfit).
Defined.

Lemma View_confirm_needs_resource_group_witness :
  let m := setStep StepConfirm NewModel in
  Step m = StepConfirm ∧ SelectedResourceGroup m = -1 ∧ View m = Panic.
Proof.
  split; [reflexivity|]. split; [reflexivity|].
  apply (View_confirm_needs_resource_group (setStep StepConfirm NewModel));
    [reflexivity | left; simpl; lia].
Defined.

(** The confirmation of the session, as drawn. *)
Example View_confirm_text :
  View (stateAfter toConfirm) =
  Ok ("Azure Policy Exemption CLI" +:+ nl +:+ nl
      +:+ "Subscription: Prod (a)" +:+ nl
      +:+ "Scope: shop" +:+ nl
      +:+ "Assignment: Security baseline" +:+ nl
      +:+ "Definitions:" +:+ nl
      +:+ "  Require TLS (tls)" +:+ nl
      +:+ "Ticket: INC1" +:+ nl
      +:+ "Requesters: alice" +:+ nl
      +:+ "Expires on: 2024-06-15" +:+ nl
      +:+ nl +:+ "Press Enter to create the exemption or q to abort." +:+ nl
      +:+ nl +:+ "Review the summary and press Enter to create the exemption."
      +:+ nl).
Proof. vm_compute. reflexivity. Qed.

Lemma session_entire_subscription_witness :
  let m := stateAfter toConfirm in
  pastResourceGroups (Step m) = true ∧
  ∃ sub,
    Subscriptions m !! Z.to_nat (SelectedSubscription m) = Some sub ∧
    ResourceGroups m !! 0%nat =
      Some (ResourceGroup.mk (Subscription.Scope sub) "Entire Subscription").
Proof.
  assert (pastResourceGroups (Step (stateAfter toConfirm)) = true) as Hp
    by (vm_compute; reflexivity).
  split; [exact Hp|].
  exact (session_entire_subscription (stateAfter toConfirm) []
           toConfirm_session Hp).
Defined.

Lemma lists_start_at_first_entry_witness :
  let m := stateAfter (toSelectSubscription ++ [key "down"]) in
  let m' := stateAfter (toSelectSubscription ++ [key "down"; enter;
                          loaded (assignmentsLoadedMsg [initiative] None)]) in
  Update "2024-06-15"
         (stateAfter (toSelectSubscription ++ [key "down"; enter]))
         (assignmentsLoadedMsg [initiative] None) = Ok (m', None) ∧
  currentListLen m' = Some 1 ∧
  Cursor m' = 0.
Proof.
  assert (Update "2024-06-15"
            (stateAfter (toSelectSubscription ++ [key "down"; enter]))
            (assignmentsLoadedMsg [initiative] None)
          = Ok (stateAfter (toSelectSubscription ++ [key "down"; enter;
                  loaded (assignmentsLoadedMsg [initiative] None)]), None))
    as HU by (vm_compute; reflexivity).
  assert (currentListLen
            (stateAfter (toSelectSubscription ++ [key "down"; enter;
               loaded (assignmentsLoadedMsg [initiative] None)])) = Some 1)
    as Hlen by (vm_compute; reflexivity).
  split; [exact HU|]. split; [exact Hlen|].
  apply (lists_start_at_first_entry "2024-06-15" _ _ _ _ 1 HU); [|exact Hlen].
  vm_compute. discriminate.
Defined.

Lemma space_toggles_highlighted_only_witness :
  let m := stateAfter toSelectDefinitions in
  Step m = StepSelectDefinitions ∧
  ∃ ref m',
    AssignmentDefinitions m !! Z.to_nat (Cursor m) = Some ref ∧
    Update "2024-06-15" m (keyMsg spaceKey) = Ok (m', None) ∧
    SelectedDefinitionIDs m' !! PolicyDefinitionRef.ReferenceID ref =
      (if default false (SelectedDefinitionIDs m
                         !! PolicyDefinitionRef.ReferenceID ref)
       then None else Some true) ∧
    (∀ id, id ≠ PolicyDefinitionRef.ReferenceID ref →
           SelectedDefinitionIDs m' !! id = SelectedDefinitionIDs m !! id) ∧
    Cursor m' = Cursor m ∧
    Step m' = Step m.
Proof.
  assert (Step (stateAfter toSelectDefinitions) = StepSelectDefinitions)
    as Hstep by (vm_compute; reflexivity).
  split; [exact Hstep|].
  exact (space_toggles_highlighted_only "2024-06-15"
           (stateAfter toSelectDefinitions)
           (stateAfter_reachable toSelectDefinitions) Hstep).
Defined.

Lemma create_passes_selected_ids_witness :
  NoDup ["tls"] ∧
  ∀ id, id ∈ ["tls"] ↔
        default false (SelectedDefinitionIDs (stateAfter toConfirm) !! id)
        = true.
Proof.
  assert (Update "2024-06-15" (stateAfter toConfirm) (keyMsg enterKey) =
            Ok (stateAfter (toConfirm ++ [enter]),
                Some (createExemptionCmd "/subscriptions/a/resourceGroups/shop"
                        initiative {["tls" := true]} "INC1" "alice"
                        "2024-06-15"))) as HU
    by (vm_compute; reflexivity).
  assert (createExemptionRefs {["tls" := true]} ["tls"])
    as Hrefs.
  { unfold createExemptionRefs. by rewrite map_to_list_singleton. }
  exact (create_passes_selected_ids "2024-06-15" (stateAfter toConfirm)
           (keyMsg enterKey) _ _ _ _ _ _ _ ["tls"]
           (stateAfter_reachable toConfirm) HU Hrefs).
Defined.
